(** * pyramid_views.views.edit: form processing and object mutation

    A shallow embedding of [pyramid_views/views/edit.py]: the mixins
    [FormMixin], [ModelFormMixin], [ProcessFormView], [BaseCreateView],
    [BaseUpdateView] and [DeletionMixin], with the view instance, the
    objects it touches and the database session as explicit state, and
    Python exceptions as an error result that keeps the state reached. *)

From Stdlib Require Import Ascii.
From stdpp Require Import gmap strings list fin_maps pretty.

Set Default Proof Using "Type".
Open Scope string_scope.
Open Scope list_scope.

(** ** Python values, exceptions, objects *)

(** The values that object attributes, form data and request parameters
    hold. *)
Inductive Value :=
  | VNone
  | VBool (b : bool)
  | VInt (z : Z)
  | VStr (s : string).

#[global] Instance Value_eq_dec : EqDecision Value.
Proof. solve_decision. Defined.

(** The exceptions that travel through the module.  [ImproperlyConfigured]
    is [pyramid_views.utils.ImproperlyConfigured]; the others are Python's
    own, and [HTTPNotFound] is what the object resolver raises. *)
Inductive exn :=
  | ImproperlyConfigured (msg : string)
  | AttributeError (name : string)
  | TypeError (msg : string)
  | KeyError (key : string)
  | ValueError (msg : string)
  | HTTPNotFound.

Inductive result (A : Type) :=
  | Ok (a : A)
  | Raise (e : exn).
Arguments Ok {A} a.
Arguments Raise {A} e.

(** A model class.  [get_absolute_url] is the optional method of that name;
    it reads the instance's [__dict__]. *)
Record Model := {
  model_name : string;
  get_absolute_url : option (gmap string Value → result string);
}.

(** An instance: its [__class__] and its [__dict__]. *)
Record PyObj := {
  __class__ : Model;
  __dict__ : gmap string Value;
}.

Definition loc := nat.

(** [setattr(obj, name, value)] *)
Definition setattr (o : PyObj) (name : string) (v : Value) : PyObj :=
  {| __class__ := __class__ o; __dict__ := <[name := v]> (__dict__ o) |}.

(** ** The database session

    The session is a collaborator (SQLAlchemy's, reached through
    [self.db_session]); the module calls [add], [flush] and [delete] on it.
    Objects are shared between the view and the session, so both hold
    references into one heap. *)

Inductive Event :=
  | EvNew (l : loc)
  | EvSetattr (l : loc) (name : string) (v : Value)
  | EvPostPopulate (l : loc)
  | EvAdd (l : loc)
  | EvFlush
  | EvDelete (l : loc).

#[global] Instance Event_eq_dec : EqDecision Event.
Proof. solve_decision. Defined.

Record Session := {
  sess_new : list loc;        (* added, not yet flushed, oldest first *)
  sess_identity : gset loc;   (* persistent *)
  sess_deleted : gset loc;    (* marked for deletion, not yet flushed *)
  next_pk : Z;                (* the next server-generated primary key *)
}.

(** What one request can change: the heap of objects, the session, the
    view's [object] attribute ([None]: the attribute is not set,
    [Some None]: it is Python's [None]) and the trace of the calls made. *)
Record State := {
  heap : gmap loc PyObj;
  db_session : Session;
  self_object : option (option loc);
  trace : list Event;
}.

(** ** Computations: state passing, with exceptions that keep the state *)

Definition M (A : Type) : Type := State → result A * State.

Definition ret {A} (a : A) : M A := λ st, (Ok a, st).
Definition raise {A} (e : exn) : M A := λ st, (Raise e, st).
Definition bind {A B} (m : M A) (k : A → M B) : M B :=
  λ st, match m st with
        | (Ok a, st') => k a st'
        | (Raise e, st') => (Raise e, st')
        end.
Definition lift {A} (r : result A) : M A := λ st, (r, st).
Definition gets {A} (f : State → A) : M A := λ st, (Ok (f st), st).
Definition modify (f : State → State) : M unit := λ st, (Ok tt, f st).
Definition emit (e : Event) : M unit :=
  modify (λ st, {| heap := heap st; db_session := db_session st;
                   self_object := self_object st;
                   trace := trace st ++ [e] |}).

#[global] Instance M_ret : MRet M := @ret.
#[global] Instance M_bind : MBind M := λ A B k m, bind m k.

Definition set_heap (h : gmap loc PyObj) : M unit :=
  modify (λ st, {| heap := h; db_session := db_session st;
                   self_object := self_object st; trace := trace st |}).
Definition set_session (s : Session) : M unit :=
  modify (λ st, {| heap := heap st; db_session := s;
                   self_object := self_object st; trace := trace st |}).

(** [self.object = v] *)
Definition set_object (v : option loc) : M unit :=
  modify (λ st, {| heap := heap st; db_session := db_session st;
                   self_object := Some v; trace := trace st |}).

(** [self.object]: an [AttributeError] when the attribute is not set. *)
Definition get_self_object : M (option loc) :=
  λ st, match self_object st with
        | Some v => (Ok v, st)
        | None => (Raise (AttributeError "object"), st)
        end.

(** Reading through a reference. *)
Definition deref (l : loc) : M PyObj :=
  λ st, match heap st !! l with
        | Some o => (Ok o, st)
        | None => (Raise (ValueError "dangling reference"), st)
        end.

(** In-place update of the object behind a reference. *)
Definition update_obj (l : loc) (f : PyObj → PyObj) : M unit :=
  λ st, set_heap (alter f l (heap st)) st.

(** [model()]: a fresh instance with an empty [__dict__]. *)
Definition fresh_loc (h : gmap loc PyObj) : loc := fresh (dom h).

Definition new_instance (m : Model) : M loc :=
  λ st, let l := fresh_loc (heap st) in
        (set_heap (<[l := {| __class__ := m; __dict__ := ∅ |}]> (heap st));;
         emit (EvNew l);;
         ret l) st.

(** The session's [add], [flush] and [delete] are not under src/ (they
    are SQLAlchemy's).  Section 6 of the spec gives their interface:
    "[add(object)], [flush()], [delete(object)] -- flush makes generated
    identifiers visible immediately". *)
Module SessionOps.

(** Modelled from the spec: [add(object)] registers the object with the
    session; it is pending until the next flush. *)
Definition add (l : loc) : M unit :=
  emit (EvAdd l);;
  s ← gets db_session;
  set_session {| sess_new := sess_new s ++ [l];
                 sess_identity := sess_identity s;
                 sess_deleted := sess_deleted s;
                 next_pk := next_pk s |}.

(** Modelled from the spec: [delete(object)] marks the object for
    deletion; the next flush removes it. *)
Definition delete (l : loc) : M unit :=
  emit (EvDelete l);;
  s ← gets db_session;
  set_session {| sess_new := sess_new s;
                 sess_identity := sess_identity s;
                 sess_deleted := sess_deleted s ∪ {[l]};
                 next_pk := next_pk s |}.

(** The primary key is the [id] column, as in the models of
    tests/models.py. *)
Definition has_pk (o : PyObj) : bool :=
  match __dict__ o !! "id" with
  | Some VNone | None => false
  | Some _ => true
  end.

(** Modelled from the spec: "flush makes generated identifiers visible
    immediately".  When a pending object is written it gets the next
    key, unless it already carries one. *)
Definition insert_row (hk : gmap loc PyObj * Z) (l : loc)
  : gmap loc PyObj * Z :=
  match hk.1 !! l with
  | Some o =>
      if has_pk o then hk
      else (<[l := setattr o "id" (VInt hk.2)]> hk.1, (hk.2 + 1)%Z)
  | None => hk
  end.

(** Modelled from the spec: [flush()] writes the pending objects, oldest
    first, and removes the ones marked for deletion. *)
Definition flush : M unit :=
  emit EvFlush;;
  s ← gets db_session;
  h ← gets heap;
  let hk := foldl insert_row (h, next_pk s) (sess_new s) in
  set_heap hk.1;;
  set_session
    {| sess_new := [];
       sess_identity :=
         (sess_identity s ∖ sess_deleted s) ∪ list_to_set (sess_new s);
       sess_deleted := ∅;
       next_pk := hk.2 |}.

End SessionOps.


(** [try: m except: h]; the handler re-raises what it does not catch. *)
Definition try_except {A} (m : M A) (h : exn → M A) : M A :=
  λ st, match m st with
        | (Raise e, st') => h e st'
        | r => r
        end.

(** [for x in xs: body(x)] *)
Fixpoint for_each {A} (xs : list A) (body : A → M unit) : M unit :=
  match xs with
  | [] => ret tt
  | x :: xs' => body x;; for_each xs' body
  end.

(** ** Forms (wtforms) *)

(** A bound field: whether it is a [FileField], and its [data]. *)
Record Field := {
  is_FileField : bool;
  data : Value;
}.

#[global] Instance Field_eq_dec : EqDecision Field.
Proof. solve_decision. Defined.

(** A form instance: [_fields] in declaration order (an ordered dict, so
    the names are distinct), the outcome of [validate()] with the [errors]
    it leaves, and the optional [post_populate] hook, which edits the
    object it is given. *)
Record Form := {
  _fields : list (string * Field);
  validate : bool;
  errors : list (string * list string);
  post_populate : option (gmap string Value → gmap string Value);
}.

(** A form class: one the developer declared (with the [model] of its
    [Meta], if that has one, which may be [None]; every wtforms form class
    has a [Meta]), or the class that [ModelFormMixin.get_form_class]
    builds around a model. *)
Inductive FormClass :=
  | DeclaredForm (name : string) (meta_model : option (option Model))
  | ModelFormWithModel (model_ : Model) (only : option (list string)).

(** [form_class.Meta.model] *)
Definition Meta_model (fc : option FormClass) : result (option Model) :=
  match fc with
  | Some (ModelFormWithModel m _) => Ok (Some m)
  | Some (DeclaredForm _ (Some mm)) => Ok mm
  | Some (DeclaredForm _ None) => Raise (AttributeError "model")
  | None => Raise (AttributeError "Meta")
  end.

(** [Field.populate_obj(obj, name)] is [setattr(obj, name, self.data)]. *)
Definition Field_populate_obj (f : Field) (target : option loc)
    (name : string) : M unit :=
  match target with
  | Some l =>
      emit (EvSetattr l name (data f));;
      update_obj l (λ o, setattr o name (data f))
  | None => raise (AttributeError name)
  end.

(** [Form.populate_obj(obj)] populates from every field. *)
Definition Form_populate_obj (form : Form) (target : option loc) : M unit :=
  for_each (_fields form) (λ nf, Field_populate_obj nf.2 target nf.1).

(** [form.post_populate(obj)] *)
Definition call_post_populate
    (hook : gmap string Value → gmap string Value)
    (target : option loc) : M unit :=
  match target with
  | Some l =>
      emit (EvPostPopulate l);;
      update_obj l (λ o, {| __class__ := __class__ o;
                            __dict__ := hook (__dict__ o) |})
  | None => raise (AttributeError "__dict__")
  end.

(** ** Requests, view configuration, responses *)

Record Request := {
  method : string;
  POST : list (string * Value);
}.

(** The class attributes a view is configured with. *)
Record View := {
  initial : list (string * Value);
  form_class : option FormClass;
  success_url : option string;
  prefix : option string;
  endpoint : bool;
  template_name : option string;
  model : option Model;
  fields : option (list string);
  partial_updates : bool;
  always_update : option (list string);
}.

(** The keyword arguments a form is built from. *)
Record FormKwargs := {
  kw_data : list (string * Value);
  kw_prefix : string;
  kw_obj : option loc;
  kw_formdata : option (list (string * Value));
  kw_instance : option (option loc);
}.

#[local] Unset Elimination Schemes.
Inductive json :=
  | JString (s : string)
  | JArray (items : list json)
  | JObject (members : list (string * json)).
#[local] Set Elimination Schemes.

(** The context that a template is rendered with. *)
Record Context := {
  ctx_form : Form;
}.

(** Modelled from the spec: [get_context_data(form=form)] (ContextMixin,
    not under src/) assembles the context dictionary; it holds the form
    under [form]. *)
Definition get_context_data (form : Form) : Context :=
  {| ctx_form := form |}.

(** The responses the module builds: [HTTPFound(url)], [Response(body)],
    [HTTPBadRequest()] with the body it is given, [HTTPNotImplemented()],
    and the response that a template renders. *)
Inductive Response :=
  | HTTPFound (location : string)
  | Response_ (body : string)
  | HTTPBadRequest (body : option json)
  | HTTPNotImplemented
  | Rendered (context : Context).

(** Modelled from the spec: [render_to_response(context) -> Response]
    (TemplateResponseMixin, in pyramid_views/views/base.py, is not under
    src/); the rendered form is a 200 response. *)
Definition render_to_response (context : Context) : Response :=
  Rendered context.

Definition status_code (r : Response) : Z :=
  match r with
  | HTTPFound _ => 302
  | Response_ _ => 200
  | HTTPBadRequest _ => 400
  | HTTPNotImplemented => 501
  | Rendered _ => 200
  end.

(** [json.dumps({'errors': form.errors})], as the document it denotes. *)
Definition json_errors (errs : list (string * list string)) : json :=
  JObject [("errors",
            JObject ((λ e, (e.1, JArray (JString <$> e.2))) <$> errs))].

(** ** Python odds and ends *)

(** The interpreter that runs the module.  What [json.dumps] returns is a
    [str]: bytes on Python 2, text on Python 3. *)
Inductive interpreter := Python2 | Python3.

(** [response.body = json.dumps(document)] on [HTTPBadRequest()].  The
    body of a (webob) response takes bytes, and its setter raises
    [TypeError] for text. *)
Definition set_body (py : interpreter) (document : json) : result Response :=
  match py with
  | Python2 => Ok (HTTPBadRequest (Some document))
  | Python3 =>
      Raise (TypeError
        "You cannot set Response.body to a text object (use Response.text)")
  end.

(** Truth value of an attribute that is a string or [None]. *)
Definition truthy (s : option string) : bool :=
  match s with
  | Some s => bool_decide (s ≠ "")
  | None => false
  end.

(** [str.upper()] on ASCII. *)
Definition upper_ascii (c : Ascii.ascii) : Ascii.ascii :=
  let n := Ascii.nat_of_ascii c in
  if (97 <=? n)%nat && (n <=? 122)%nat then Ascii.ascii_of_nat (n - 32) else c.

Fixpoint upper (s : string) : string :=
  match s with
  | EmptyString => EmptyString
  | String c s' => String (upper_ascii c) (upper s')
  end.

(** ** Collaborators

    What the module calls and does not define: the object resolver and
    the query provider of [SingleObjectMixin], [get_model_from_obj] of
    [pyramid_views.utils], the construction of a form from its class
    (wtforms), and Python's [template % mapping]; and the interpreter
    that runs it. *)
Class Collaborators := {
  python : interpreter;
  Query : Type;
  get_object : View → Request → State → result loc;
  get_query : View → State → result Query;
  get_model_from_obj : Query → result Model;
  instantiate : FormClass → FormKwargs → gmap loc PyObj → result Form;
  interpolate : string → gmap string Value → result string;
}.

(** Running a collaborator that reads the state. *)
Definition reads {A} (f : State → result A) : M A := λ st, (f st, st).

(** ** The mixins

    A method that the source reaches through [self] or [super()] and that
    a subclass may override is a section variable ([self_...],
    [super_...]); the classes at the end bind them along each class's
    method resolution order. *)

Module FormMixin.
Section methods.
Context `{!Collaborators}.
Variable self : View.
Variable request : Request.
Variable super_get : M Response.
Variable self_get_form_kwargs : M FormKwargs.
Variable self_get_success_url : M string.

Definition get : M Response :=
  if endpoint self && negb (truthy (template_name self))
  then ret HTTPNotImplemented
  else super_get.

Definition get_initial : list (string * Value) := initial self.

Definition get_prefix : option string := prefix self.

Definition get_form_class : M (option FormClass) := ret (form_class self).

Definition get_form (form_class : option FormClass) : M Form :=
  kwargs ← self_get_form_kwargs;
  match form_class with
  | Some fc => h ← gets heap; lift (instantiate fc kwargs h)
  | None => raise (TypeError "'NoneType' object is not callable")
  end.

Definition get_form_kwargs : M FormKwargs :=
  obj ← gets self_object;
  let formdata :=
    if bool_decide (upper (method request) ∈ ["POST"; "PUT"])
    then Some (POST request) else None in
  ret {| kw_data := get_initial;
         kw_prefix := default "" get_prefix;
         kw_obj := default None obj;
         kw_formdata := formdata;
         kw_instance := None |}.

Definition get_success_url : M string :=
  if truthy (success_url self)
  then ret (default "" (success_url self))
  else raise (ImproperlyConfigured
         "No URL to redirect to. Provide a success_url.").

Definition form_valid (form : Form) : M Response :=
  try_except
    (url ← self_get_success_url; ret (HTTPFound url))
    (λ e, match e with
          | ImproperlyConfigured _ =>
              if endpoint self then ret (Response_ "") else raise e
          | _ => raise e
          end).

Definition form_invalid (form : Form) : M Response :=
  if negb (endpoint self)
  then ret (render_to_response (get_context_data form))
  else lift (set_body python (json_errors (errors form))).

End methods.
End FormMixin.

Module ModelFormMixin.
Section methods.
Context `{!Collaborators}.
Variable self : View.
Variable request : Request.
Variable self_get_form_class : M (option FormClass).
Variable self_populate_obj : Form → M unit.
Variable self_save : M (option loc).
Variable super_form_valid : Form → M Response.

Definition get_form_class : M (option FormClass) :=
  match form_class self with
  | Some fc => ret (Some fc)
  | None =>
      obj ← gets self_object;
      model ← match model self, obj with
              | Some m, _ => ret m
              | None, Some (Some l) => o ← deref l; ret (__class__ o)
              | None, _ => q ← reads (get_query self);
                           lift (get_model_from_obj q)
              end;
      ret (Some (ModelFormWithModel model (fields self)))
  end.

Definition get_form_kwargs : M FormKwargs :=
  kwargs ← FormMixin.get_form_kwargs self request;
  obj ← gets self_object;
  match obj with
  | Some o => ret {| kw_data := kw_data kwargs;
                     kw_prefix := kw_prefix kwargs;
                     kw_obj := kw_obj kwargs;
                     kw_formdata := kw_formdata kwargs;
                     kw_instance := Some o |}
  | None => ret kwargs
  end.

Definition get_success_url : M string :=
  if truthy (success_url self)
  then
    obj ← get_self_object;
    match obj with
    | Some l => o ← deref l;
                lift (interpolate (default "" (success_url self))
                                  (__dict__ o))
    | None => raise (AttributeError "__dict__")
    end
  else
    try_except
      (obj ← get_self_object;
       match obj with
       | Some l =>
           o ← deref l;
           match get_absolute_url (__class__ o) with
           | Some f => lift (f (__dict__ o))
           | None => raise (AttributeError "get_absolute_url")
           end
       | None => raise (AttributeError "get_absolute_url")
       end)
      (λ e, match e with
            | AttributeError _ =>
                raise (ImproperlyConfigured
                  "No URL to redirect to.  Either provide a url or define a get_absolute_url method on the Model.")
            | _ => raise e
            end).

Definition form_valid (form : Form) : M Response :=
  obj ← get_self_object;
  match obj with
  | None =>
      model ← match model self with
              | Some m => ret (Some m)
              | None => fc ← self_get_form_class; lift (Meta_model fc)
              end;
      match model with
      | Some m => l ← new_instance m; set_object (Some l)
      | None => raise (TypeError "'NoneType' object is not callable")
      end
  | Some _ => ret tt
  end;;
  self_populate_obj form;;
  self_save;;
  super_form_valid form.

Definition populate_obj (form : Form) : M unit :=
  obj ← get_self_object;
  Form_populate_obj form obj.

(** [add] refuses [None], which is no mapped instance. *)
Definition save : M (option loc) :=
  obj ← get_self_object;
  match obj with
  | Some l => SessionOps.add l
  | None => raise (TypeError "Class 'NoneType' is not mapped")
  end;;
  SessionOps.flush;;
  obj ← get_self_object;
  ret obj.

End methods.
End ModelFormMixin.

Module ProcessFormView.
Section methods.
Variable self_get_form_class : M (option FormClass).
Variable self_get_form : option FormClass → M Form.
Variable self_form_valid : Form → M Response.
Variable self_form_invalid : Form → M Response.
Variable self_post : M Response.

Definition get : M Response :=
  form_class ← self_get_form_class;
  form ← self_get_form form_class;
  ret (render_to_response (get_context_data form)).

Definition post : M Response :=
  form_class ← self_get_form_class;
  form ← self_get_form form_class;
  if validate form
  then self_form_valid form
  else self_form_invalid form.

Definition put : M Response := self_post.

End methods.
End ProcessFormView.

Module BaseCreateView.
Section methods.
Variable super_get : M Response.
Variable super_post : M Response.

Definition get : M Response :=
  set_object None;;
  super_get.

Definition post : M Response :=
  set_object None;;
  super_post.

End methods.
End BaseCreateView.

Module BaseUpdateView.
Section methods.
Context `{!Collaborators}.
Variable self : View.
Variable request : Request.
Variable super_get : M Response.
Variable super_post : M Response.

Definition get : M Response :=
  l ← reads (get_object self request);
  set_object (Some l);;
  super_get.

Definition post : M Response :=
  l ← reads (get_object self request);
  set_object (Some l);;
  super_post.

(** The test of the partial update: which fields are populated. *)
Definition populates (name : string) (field : Field) : bool :=
  let in_post_data := bool_decide (name ∈ (POST request).*1) in
  let empty_file_upload :=
    is_FileField field && bool_decide (data field = VStr "") in
  let always_update :=
    bool_decide (name ∈ default [] (always_update self)) in
  always_update || (in_post_data && negb empty_file_upload).

Definition populate_obj (form : Form) : M unit :=
  (if negb (partial_updates self)
   then
     obj ← get_self_object;
     Form_populate_obj form obj
   else
     for_each (_fields form) (λ nf,
       if populates nf.1 nf.2
       then obj ← get_self_object; Field_populate_obj nf.2 obj nf.1
       else ret tt));;
  match post_populate form with
  | Some hook => obj ← get_self_object; call_post_populate hook obj
  | None => ret tt
  end.

End methods.
End BaseUpdateView.

Module DeletionMixin.
Section methods.
Context `{!Collaborators}.
Variable self : View.
Variable request : Request.

Definition get_success_url : M string :=
  if truthy (success_url self)
  then
    obj ← get_self_object;
    match obj with
    | Some l => o ← deref l;
                lift (interpolate (default "" (success_url self))
                                  (__dict__ o))
    | None => raise (AttributeError "__dict__")
    end
  else raise (ImproperlyConfigured
         "No URL to redirect to. Provide a success_url.").

(** [delete] refuses [None], which is no mapped instance. *)
Definition do_delete : M unit :=
  obj ← get_self_object;
  match obj with
  | Some l => SessionOps.delete l
  | None => raise (TypeError "Class 'NoneType' is not mapped")
  end.

(** [getattr(self, 'endpoint', None)]: a view without the attribute
    reads [None], which is false. *)
Definition delete : M Response :=
  l ← reads (get_object self request);
  set_object (Some l);;
  do_delete;;
  try_except
    (success_url ← get_success_url; ret (HTTPFound success_url))
    (λ e, match e with
          | ImproperlyConfigured _ =>
              if endpoint self then ret (Response_ "") else raise e
          | _ => raise e
          end).

Definition post : M Response := delete.

End methods.
End DeletionMixin.

(** ** The views, with their methods resolved

    [FormView(TemplateResponseMixin, BaseFormView)],
    [BaseFormView(FormMixin, ProcessFormView)]. *)
Module FormView.
Section resolution.
Context `{!Collaborators}.
Variable self : View.
Variable request : Request.

Definition get_form_class := FormMixin.get_form_class self.
Definition get_form_kwargs := FormMixin.get_form_kwargs self request.
Definition get_form := FormMixin.get_form get_form_kwargs.
Definition get_success_url := FormMixin.get_success_url self.
Definition form_valid := FormMixin.form_valid self get_success_url.
Definition form_invalid := FormMixin.form_invalid self.
Definition get :=
  FormMixin.get self (ProcessFormView.get get_form_class get_form).
Definition post :=
  ProcessFormView.post get_form_class get_form form_valid form_invalid.
Definition put := ProcessFormView.put post.

End resolution.
End FormView.

(** [CreateView(SingleObjectTemplateResponseMixin, MacroMixin,
    BaseCreateView)], [BaseCreateView(ModelFormMixin, ProcessFormView)],
    [ModelFormMixin(FormMixin, SingleObjectMixin)]. *)
Module CreateView.
Section resolution.
Context `{!Collaborators}.
Variable self : View.
Variable request : Request.

Definition get_form_class := ModelFormMixin.get_form_class self.
Definition get_form_kwargs := ModelFormMixin.get_form_kwargs self request.
Definition get_form := FormMixin.get_form get_form_kwargs.
Definition get_success_url := ModelFormMixin.get_success_url self.
Definition populate_obj := ModelFormMixin.populate_obj.
Definition save := ModelFormMixin.save.
Definition form_valid :=
  ModelFormMixin.form_valid self get_form_class populate_obj save
    (FormMixin.form_valid self get_success_url).
Definition form_invalid := FormMixin.form_invalid self.
Definition get :=
  BaseCreateView.get
    (FormMixin.get self (ProcessFormView.get get_form_class get_form)).
Definition post :=
  BaseCreateView.post
    (ProcessFormView.post get_form_class get_form form_valid form_invalid).
Definition put := ProcessFormView.put post.

End resolution.
End CreateView.

(** [UpdateView(SingleObjectTemplateResponseMixin, MacroMixin,
    BaseUpdateView)], [BaseUpdateView(ModelFormMixin, ProcessFormView)]. *)
Module UpdateView.
Section resolution.
Context `{!Collaborators}.
Variable self : View.
Variable request : Request.

Definition get_form_class := ModelFormMixin.get_form_class self.
Definition get_form_kwargs := ModelFormMixin.get_form_kwargs self request.
Definition get_form := FormMixin.get_form get_form_kwargs.
Definition get_success_url := ModelFormMixin.get_success_url self.
Definition populate_obj := BaseUpdateView.populate_obj self request.
Definition save := ModelFormMixin.save.
Definition form_valid :=
  ModelFormMixin.form_valid self get_form_class populate_obj save
    (FormMixin.form_valid self get_success_url).
Definition form_invalid := FormMixin.form_invalid self.
Definition get :=
  BaseUpdateView.get self request
    (FormMixin.get self (ProcessFormView.get get_form_class get_form)).
Definition post :=
  BaseUpdateView.post self request
    (ProcessFormView.post get_form_class get_form form_valid form_invalid).
Definition put := ProcessFormView.put post.

End resolution.
End UpdateView.

(** [DeleteView(SingleObjectTemplateResponseMixin, MacroMixin,
    BaseDeleteView)], [BaseDeleteView(DeletionMixin, BaseDetailView)]. *)
Module DeleteView.
Section resolution.
Context `{!Collaborators}.
Variable self : View.
Variable request : Request.

Definition get_success_url := DeletionMixin.get_success_url self.
Definition do_delete := DeletionMixin.do_delete.
Definition delete := DeletionMixin.delete self request.
Definition post := DeletionMixin.post self request.

End resolution.
End DeleteView.

(** * Vocabulary of the properties *)

(** [st] with another heap and another trace. *)
Definition with_heap_trace (st : State) (h : gmap loc PyObj)
    (t : list Event) : State :=
  {| heap := h; db_session := db_session st;
     self_object := self_object st; trace := t |}.

(** The object after the fields selected by [p] have been copied. *)
Definition populated (p : string → Field → bool)
    (fs : list (string * Field)) (o : PyObj) : PyObj :=
  foldl (λ o nf, if p nf.1 nf.2 then setattr o nf.1 (data nf.2) else o) o fs.

(** The assignments made for the fields selected by [p]. *)
Definition assignments (p : string → Field → bool) (l : loc)
    (fs : list (string * Field)) : list Event :=
  (λ nf, EvSetattr l nf.1 (data nf.2)) <$> filter (λ nf, p nf.1 nf.2) fs.

(** The object once the form's hook, if any, has run on it. *)
Definition after_hook (hook : option (gmap string Value → gmap string Value))
    (o : PyObj) : PyObj :=
  match hook with
  | Some h => {| __class__ := __class__ o; __dict__ := h (__dict__ o) |}
  | None => o
  end.

(** The call of the form's hook, if it has one. *)
Definition hook_events (hook : option (gmap string Value → gmap string Value))
    (l : loc) : list Event :=
  match hook with
  | Some _ => [EvPostPopulate l]
  | None => []
  end.

(** Every field is selected. *)
Definition every : string → Field → bool := λ _ _, true.

(** A computation that leaves the state as it found it. *)
Definition reads_only {A} (m : M A) : Prop := ∀ st, (m st).2 = st.

(** The state after [self.object = v]. *)
Definition with_object (st : State) (v : option loc) : State :=
  {| heap := heap st; db_session := db_session st;
     self_object := Some v; trace := trace st |}.

(** The three views that process a form, and their methods by class. *)
Inductive form_view := a_FormView | a_CreateView | a_UpdateView.

Section by_class.
Context `{!Collaborators}.

Definition get_form_class_of (cls : form_view) :=
  match cls with
  | a_FormView => FormView.get_form_class
  | a_CreateView => CreateView.get_form_class
  | a_UpdateView => UpdateView.get_form_class
  end.

Definition get_form_kwargs_of (cls : form_view) :=
  match cls with
  | a_FormView => FormView.get_form_kwargs
  | a_CreateView => CreateView.get_form_kwargs
  | a_UpdateView => UpdateView.get_form_kwargs
  end.

Definition get_form_of (cls : form_view) :=
  match cls with
  | a_FormView => FormView.get_form
  | a_CreateView => CreateView.get_form
  | a_UpdateView => UpdateView.get_form
  end.

Definition get_success_url_of (cls : form_view) :=
  match cls with
  | a_FormView => FormView.get_success_url
  | a_CreateView => CreateView.get_success_url
  | a_UpdateView => UpdateView.get_success_url
  end.

Definition form_valid_of (cls : form_view) (self : View) (request : Request)
    (form : Form) : M Response :=
  match cls with
  | a_FormView => FormView.form_valid self form
  | a_CreateView => CreateView.form_valid self form
  | a_UpdateView => UpdateView.form_valid self request form
  end.

Definition get_of (cls : form_view) :=
  match cls with
  | a_FormView => FormView.get
  | a_CreateView => CreateView.get
  | a_UpdateView => UpdateView.get
  end.

Definition post_of (cls : form_view) :=
  match cls with
  | a_FormView => FormView.post
  | a_CreateView => CreateView.post
  | a_UpdateView => UpdateView.post
  end.

Definition put_of (cls : form_view) :=
  match cls with
  | a_FormView => FormView.put
  | a_CreateView => CreateView.put
  | a_UpdateView => UpdateView.put
  end.

(** Where a handler stands once it has set [self.object]: [FormView]
    sets nothing, [BaseCreateView] sets [None], [BaseUpdateView] the
    object that [get_object] resolves. *)
Definition entered (cls : form_view) (self : View) (request : Request)
    (st : State) : result State :=
  match cls with
  | a_FormView => Ok st
  | a_CreateView => Ok (with_object st None)
  | a_UpdateView =>
      match get_object self request st with
      | Ok l => Ok (with_object st (Some l))
      | Raise e => Raise e
      end
  end.

End by_class.

(** [o'] is [o], but for a primary key that a flush may have given it. *)
Definition keyed (o o' : PyObj) : Prop :=
  __class__ o' = __class__ o
  ∧ (∀ n, n ≠ "id" → __dict__ o' !! n = __dict__ o !! n)
  ∧ (SessionOps.has_pk o = true → o' = o).

(** [st2] is [st] after the object behind [l], left as [o] by the events
    [evs], has been added to the session and flushed. *)
Definition saved (st st2 : State) (l : loc) (o : PyObj)
    (evs : list Event) : Prop :=
  self_object st2 = Some (Some l)
  ∧ (∃ o2, heap st2 !! l = Some o2 ∧ keyed o o2
           ∧ SessionOps.has_pk o2 = true)
  ∧ trace st2 = trace st ++ evs ++ [EvAdd l; EvFlush]
  ∧ l ∈ sess_identity (db_session st2)
  ∧ sess_new (db_session st2) = [].

(** The state after [self.object = model()]. *)
Definition with_new_instance (st : State) (m : Model) : State :=
  let l := fresh_loc (heap st) in
  {| heap := <[l := {| __class__ := m; __dict__ := ∅ |}]> (heap st);
     db_session := db_session st;
     self_object := Some (Some l);
     trace := trace st ++ [EvNew l] |}.

(** The model that [form_valid] instantiates: [self.model], or else the
    [Meta.model] of the form class. *)
Definition instantiates `{!Collaborators} (self : View) (st : State)
    (m : Model) : Prop :=
  model self = Some m
  ∨ (model self = None
     ∧ ∃ fc, (ModelFormMixin.get_form_class self st).1 = Ok fc
             ∧ Meta_model fc = Ok (Some m)).

(** [form_valid] up to its last statement, the call of
    [FormMixin.form_valid] that computes the success URL and answers:
    the method itself, with that call left out. *)
Definition before_answer `{!Collaborators} (cls : form_view) (self : View)
    (request : Request) (form : Form) : M Response :=
  match cls with
  | a_FormView => ret (Response_ "")
  | a_CreateView =>
      ModelFormMixin.form_valid self (CreateView.get_form_class self)
        CreateView.populate_obj CreateView.save
        (λ _, ret (Response_ "")) form
  | a_UpdateView =>
      ModelFormMixin.form_valid self (UpdateView.get_form_class self)
        (UpdateView.populate_obj self request) UpdateView.save
        (λ _, ret (Response_ "")) form
  end.

(** The fields that [BaseUpdateView.populate_obj] copies. *)
Definition selection (self : View) (request : Request)
  : string → Field → bool :=
  if partial_updates self then BaseUpdateView.populates self request
  else every.

(** The state after [self.object = l] and [self.db_session.delete(l)]. *)
Definition with_deleted (st : State) (l : loc) : State :=
  {| heap := heap st;
     db_session :=
       {| sess_new := sess_new (db_session st);
          sess_identity := sess_identity (db_session st);
          sess_deleted := sess_deleted (db_session st) ∪ {[l]};
          next_pk := next_pk (db_session st) |};
     self_object := Some (Some l);
     trace := trace st ++ [EvDelete l] |}.

(** What a view answers once the success URL has been asked for. *)
Definition answer (self : View) (url : result string) : result Response :=
  match url with
  | Ok url => Ok (HTTPFound url)
  | Raise (ImproperlyConfigured msg) =>
      if endpoint self then Ok (Response_ "")
      else Raise (ImproperlyConfigured msg)
  | Raise e => Raise e
  end.

(** Two states with the same objects, the same session and the same
    calls made: they differ, at most, in [self.object]. *)
Definition same_store (st st' : State) : Prop :=
  heap st' = heap st
  ∧ db_session st' = db_session st
  ∧ trace st' = trace st.

(** The same view with [partial_updates] off. *)
Definition without_partial_updates (self : View) : View :=
  {| initial := initial self; form_class := form_class self;
     success_url := success_url self; prefix := prefix self;
     endpoint := endpoint self; template_name := template_name self;
     model := model self; fields := fields self;
     partial_updates := false; always_update := always_update self |}.

(** ** A test bench

    Concrete collaborators, models and forms to run the views on. *)
Module Bench.

(** [str(value)] *)
Definition str (v : Value) : string :=
  match v with
  | VNone => "None"
  | VBool true => "True"
  | VBool false => "False"
  | VInt z => pretty z
  | VStr s => s
  end.

(** [template % mapping] for templates made of literal text, [%%] and
    [%(key)s]; any other directive is refused. *)
Inductive scan := Text | Percent | Key (k : string) | Conv (k : string).

Fixpoint format (s : string) (sc : scan) (d : gmap string Value)
  : result string :=
  match s, sc with
  | EmptyString, Text => Ok ""
  | EmptyString, _ => Raise (ValueError "incomplete format")
  | String c r, Text =>
      if decide (c = "%"%char) then format r Percent d
      else match format r Text d with
           | Ok t => Ok (String c t)
           | Raise e => Raise e
           end
  | String c r, Percent =>
      if decide (c = "%"%char) then
        match format r Text d with
        | Ok t => Ok (String c t)
        | Raise e => Raise e
        end
      else if decide (c = "("%char) then format r (Key "") d
      else Raise (ValueError "unsupported format character")
  | String c r, Key k =>
      if decide (c = ")"%char) then format r (Conv k) d
      else format r (Key (k +:+ String c "")) d
  | String c r, Conv k =>
      if decide (c = "s"%char) then
        match d !! k with
        | Some v =>
            match format r Text d with
            | Ok t => Ok (str v +:+ t)
            | Raise e => Raise e
            end
        | None => Raise (KeyError k)
        end
      else Raise (ValueError "unsupported format character")
  end.

(** [Author] and [Book], as in tests/models.py, have no
    [get_absolute_url]; [Painting] is a model that has one. *)
Definition Author : Model :=
  {| model_name := "Author"; get_absolute_url := None |}.

Definition Book : Model :=
  {| model_name := "Book"; get_absolute_url := None |}.

Definition Painting : Model :=
  {| model_name := "Painting";
     get_absolute_url :=
       Some (λ d, match d !! "id" with
                  | Some v => Ok ("/paintings/" +:+ str v +:+ "/")
                  | None => Raise (AttributeError "id")
                  end) |}.

(** A form with the one field [name], required: bound to the submitted
    value when there is form data, else to the object's attribute, else
    to the initial data. *)
Definition assoc (k : string) (l : list (string * Value)) : option Value :=
  snd <$> List.find (λ e, bool_decide (e.1 = k)) l.

Definition name_form (kw : FormKwargs) (h : gmap loc PyObj) : Form :=
  let from_obj :=
    match l ← kw_obj kw; o ← h !! l; __dict__ o !! "name" with
    | Some v => v
    | None => default VNone (assoc "name" (kw_data kw))
    end in
  match kw_formdata kw with
  | Some fd =>
      let v := default (VStr "") (assoc "name" fd) in
      {| _fields := [("name", {| is_FileField := false; data := v |})];
         validate := bool_decide (v ≠ VStr "");
         errors := if bool_decide (v ≠ VStr "") then []
                   else [("name", ["This field is required."])];
         post_populate := None |}
  | None =>
      {| _fields := [("name", {| is_FileField := false;
                                 data := from_obj |})];
         validate := false;
         errors := [];
         post_populate := None |}
  end.

(** The hook of the form class [SluggedForm]: it derives [slug] from
    [name]. *)
Definition slugify (d : gmap string Value) : gmap string Value :=
  <["slug" := default VNone (d !! "name")]> d.

Definition SluggedForm : FormClass :=
  DeclaredForm "SluggedForm" (Some (Some Author)).

(** The forms of [SluggedForm] have the hook, the others have none. *)
Definition bench_form (fc : FormClass) (kw : FormKwargs)
    (h : gmap loc PyObj) : Form :=
  let f := name_form kw h in
  match fc with
  | DeclaredForm name _ =>
      if String.eqb name "SluggedForm"
      then {| _fields := _fields f; validate := validate f;
              errors := errors f; post_populate := Some slugify |}
      else f
  | ModelFormWithModel _ _ => f
  end.

#[export] Instance bench : Collaborators := {|
  python := Python3;
  Query := Model;
  get_object := λ _ _ st,
    match heap st !! 0%nat with
    | Some _ => Ok 0%nat
    | None => Raise HTTPNotFound
    end;
  get_query := λ _ _, Ok Author;
  get_model_from_obj := Ok;
  instantiate := λ fc kw h, Ok (bench_form fc kw h);
  interpolate := λ s d, format s Text d;
|}.

(** The same collaborators on Python 2. *)
Definition bench_python2 : Collaborators := {|
  python := Python2;
  Query := @Query bench;
  get_object := @get_object bench;
  get_query := @get_query bench;
  get_model_from_obj := @get_model_from_obj bench;
  instantiate := @instantiate bench;
  interpolate := @interpolate bench;
|}.

Definition empty_session : Session :=
  {| sess_new := []; sess_identity := ∅; sess_deleted := ∅;
     next_pk := 7 |}.

Definition start (h : gmap loc PyObj) : State :=
  {| heap := h; db_session := empty_session; self_object := None;
     trace := [] |}.

Definition view : View :=
  {| initial := []; form_class := None; success_url := None;
     prefix := None; endpoint := false; template_name := None;
     model := None; fields := None; partial_updates := false;
     always_update := None |}.

(** A book to update: a partial update that submits [name] and an empty
    [cover] upload, and always refreshes [slug]. *)
Definition book : PyObj :=
  {| __class__ := Book;
     __dict__ := {[ "name" := VStr "old"; "slug" := VStr "old";
                    "pages" := VStr "100"; "cover" := VStr "a.png" ]} |}.

Definition book_form : Form :=
  {| _fields := [("name", {| is_FileField := false; data := VStr "new" |});
                 ("slug", {| is_FileField := false; data := VStr "new" |});
                 ("pages", {| is_FileField := false; data := VNone |});
                 ("cover", {| is_FileField := true; data := VStr "" |})];
     validate := true;
     errors := [];
     post_populate := None |}.

Definition partial_view : View :=
  {| initial := []; form_class := None; success_url := None;
     prefix := None; endpoint := false; template_name := None;
     model := None; fields := None; partial_updates := true;
     always_update := Some ["slug"] |}.

Definition book_request : Request :=
  {| method := "POST";
     POST := [("name", VStr "new"); ("cover", VStr "")] |}.

Definition editing (o : PyObj) : State :=
  {| heap := {[ 0%nat := o ]}; db_session := empty_session;
     self_object := Some (Some 0%nat); trace := [] |}.

Definition endpoint_view : View :=
  {| initial := []; form_class := None; success_url := None;
     prefix := None; endpoint := true; template_name := None;
     model := None; fields := None; partial_updates := false;
     always_update := None |}.

Definition post_request (name : string) : Request :=
  {| method := "POST"; POST := [("name", VStr name)] |}.

Definition get_request : Request :=
  {| method := "GET"; POST := [] |}.

(** An endpoint with a declared form class and no template name. *)
Definition bare_endpoint : View :=
  {| initial := []; form_class := Some (DeclaredForm "NameForm" None);
     success_url := None; prefix := None; endpoint := true;
     template_name := None; model := None; fields := None;
     partial_updates := false; always_update := None |}.

(** A view that redirects to the object it has saved. *)
Definition items_view : View :=
  {| initial := []; form_class := None;
     success_url := Some "/items/%(id)s";
     prefix := None; endpoint := false; template_name := None;
     model := None; fields := None; partial_updates := false;
     always_update := None |}.

(** The form that a POST of [name] binds. *)
Definition posted (name : string) (obj : option loc) (h : gmap loc PyObj)
  : Form :=
  name_form {| kw_data := []; kw_prefix := ""; kw_obj := obj;
               kw_formdata := Some [("name", VStr name)];
               kw_instance := Some obj |} h.

(** A view with the form class [SluggedForm]; it is an endpoint, so that
    the missing success URL is no error. *)
Definition slugged_view : View :=
  {| initial := []; form_class := Some SluggedForm; success_url := None;
     prefix := None; endpoint := true; template_name := None;
     model := None; fields := None; partial_updates := false;
     always_update := None |}.

(** A [Painting], which has a [get_absolute_url]. *)
Definition canvas : PyObj :=
  {| __class__ := Painting;
     __dict__ := {[ "id" := VInt 3; "name" := VStr "Ana" ]} |}.

(** A plain form view that redirects to a URL with a percent sign. *)
Definition thanks_view : View :=
  {| initial := []; form_class := Some (DeclaredForm "NameForm" None);
     success_url := Some "/thanks/%(id)s"; prefix := None;
     endpoint := false; template_name := None; model := None;
     fields := None; partial_updates := false; always_update := None |}.

(** An endpoint whose success URL names an attribute, [slug], that the
    objects at hand do not have. *)
Definition slug_endpoint : View :=
  {| initial := []; form_class := None;
     success_url := Some "/items/%(slug)s"; prefix := None;
     endpoint := true; template_name := None; model := None;
     fields := None; partial_updates := false; always_update := None |}.

(** A view with partial updates and no [always_update]. *)
Definition sparse_view : View :=
  {| initial := []; form_class := None; success_url := None;
     prefix := None; endpoint := false; template_name := None;
     model := None; fields := None; partial_updates := true;
     always_update := None |}.

End Bench.

Import Bench.

(** * Properties *)

(** ** Running computations *)

Lemma with_heap_trace_id (st : State) (l : loc) (o : PyObj) :
  heap st !! l = Some o →
  with_heap_trace st (<[l := o]> (heap st)) (trace st ++ []) = st.
Proof.
  intros Hl. destruct st as [h s so t]; unfold with_heap_trace; simpl in *.
  by rewrite insert_id, app_nil_r.
Qed.

Lemma alter_lookup_insert (f : PyObj → PyObj) (h : gmap loc PyObj)
    (l : loc) (o : PyObj) :
  h !! l = Some o → alter f l h = <[l := f o]> h.
Proof.
  intros Hl. apply map_eq; intros i.
  destruct (decide (i = l)) as [->|Hne].
  - by rewrite lookup_alter_eq, lookup_insert_eq, Hl.
  - by rewrite lookup_alter_ne, lookup_insert_ne.
Qed.


Lemma run_bind {A B} (m : M A) (k : A → M B) (st : State) :
  (m ≫= k) st = match m st with
                | (Ok a, st') => k a st'
                | (Raise e, st') => (Raise e, st')
                end.
Proof. reflexivity. Qed.

Lemma run_bind_ok {A B} (m : M A) (k : A → M B) (st st' : State) (a : A) :
  m st = (Ok a, st') → (m ≫= k) st = k a st'.
Proof. intros H. by rewrite run_bind, H. Qed.

Lemma run_bind_raise {A B} (m : M A) (k : A → M B) (st st' : State) e :
  m st = (Raise e, st') → (m ≫= k) st = (Raise e, st').
Proof. intros H. by rewrite run_bind, H. Qed.

Lemma run_get_self_object (st : State) (v : option loc) :
  self_object st = Some v → get_self_object st = (Ok v, st).
Proof. intros H. unfold get_self_object. by rewrite H. Qed.

Lemma run_deref (st : State) (l : loc) (o : PyObj) :
  heap st !! l = Some o → deref l st = (Ok o, st).
Proof. intros H. unfold deref. by rewrite H. Qed.

Lemma run_Field_populate_obj (f : Field) (l : loc) (n : string)
    (st : State) (o : PyObj) :
  heap st !! l = Some o →
  Field_populate_obj f (Some l) n st
  = (Ok tt, with_heap_trace st (<[l := setattr o n (data f)]> (heap st))
              (trace st ++ [EvSetattr l n (data f)])).
Proof.
  intros Hl. unfold Field_populate_obj. rewrite run_bind. simpl.
  unfold update_obj, set_heap, modify, with_heap_trace; simpl.
  by rewrite (alter_lookup_insert _ _ _ o Hl).
Qed.

(** ** Population, field by field *)

Lemma assignments_cons (p : string → Field → bool) (l : loc) (n : string)
    (f : Field) (fs : list (string * Field)) :
  assignments p l ((n, f) :: fs)
  = if p n f then EvSetattr l n (data f) :: assignments p l fs
    else assignments p l fs.
Proof.
  unfold assignments. rewrite filter_cons. simpl.
  destruct (p n f); simpl; done.
Qed.

Lemma populate_loop (p : string → Field → bool) (l : loc)
    (fs : list (string * Field)) :
  ∀ (st : State) (o : PyObj),
    self_object st = Some (Some l) →
    heap st !! l = Some o →
    for_each fs (λ nf,
      if p nf.1 nf.2
      then obj ← get_self_object; Field_populate_obj nf.2 obj nf.1
      else ret tt) st
    = (Ok tt, with_heap_trace st (<[l := populated p fs o]> (heap st))
                (trace st ++ assignments p l fs)).
Proof.
  induction fs as [|[n f] fs IH]; intros st o Hso Hl.
  - unfold assignments; rewrite filter_nil; simpl. unfold ret.
    by rewrite (with_heap_trace_id st l o).
  - cbn [for_each]. rewrite run_bind. cbn [fst snd].
    rewrite assignments_cons. simpl populated. destruct (p n f) eqn:Hp.
    + rewrite (run_bind_ok _ _ _ _ _ (run_get_self_object st _ Hso)).
      rewrite (run_Field_populate_obj f l n st o Hl).
      erewrite IH; [| done | apply lookup_insert_eq].
      unfold with_heap_trace; simpl. rewrite insert_insert_eq.
      by rewrite <- app_assoc.
    + unfold ret at 1. by rewrite (IH st o Hso Hl).
Qed.

Lemma populated_class (p : string → Field → bool)
    (fs : list (string * Field)) :
  ∀ o, __class__ (populated p fs o) = __class__ o.
Proof.
  induction fs as [|[n f] fs IH]; intros o; [done|].
  simpl. rewrite IH. by destruct (p n f).
Qed.

Lemma populated_lookup_notin (p : string → Field → bool)
    (fs : list (string * Field)) (name : string) :
  ∀ o, name ∉ fs.*1 →
       __dict__ (populated p fs o) !! name = __dict__ o !! name.
Proof.
  induction fs as [|[n f] fs IH]; intros o Hn; [done|].
  rewrite fmap_cons, not_elem_of_cons in Hn. destruct Hn as [Hne Hn].
  simpl in *. rewrite (IH _ Hn). destruct (p n f); [|done].
  simpl. by rewrite lookup_insert_ne.
Qed.

Lemma populated_lookup_in (p : string → Field → bool)
    (fs : list (string * Field)) (name : string) (field : Field) :
  ∀ o, NoDup fs.*1 → (name, field) ∈ fs →
       __dict__ (populated p fs o) !! name
       = if p name field then Some (data field) else __dict__ o !! name.
Proof.
  induction fs as [|[n f] fs IH]; intros o Hnd Hin.
  - by apply elem_of_nil in Hin.
  - rewrite fmap_cons in Hnd. apply NoDup_cons in Hnd as [Hn Hnd].
    apply elem_of_cons in Hin as [Heq|Hin].
    + inversion Heq; subst n f. simpl in *.
      rewrite (populated_lookup_notin _ _ _ _ Hn).
      destruct (p name field); [|done]. simpl. apply lookup_insert_eq.
    + simpl in *. rewrite (IH _ Hnd Hin).
      assert (name ≠ n) as Hne.
      { intros ->. apply Hn. apply (list_elem_of_fmap_2 fst _ _ Hin). }
      destruct (p name field); [done|].
      destruct (p n f); [|done]. simpl. by rewrite lookup_insert_ne.
Qed.

Lemma assignments_elem_of (p : string → Field → bool) (l : loc)
    (fs : list (string * Field)) (l' : loc) (name : string) (v : Value) :
  EvSetattr l' name v ∈ assignments p l fs
  ↔ l' = l ∧ ∃ field, (name, field) ∈ fs ∧ v = data field
                     ∧ p name field = true.
Proof.
  unfold assignments. rewrite list_elem_of_fmap. split.
  - intros [[n f] [Heq Hin]]. apply list_elem_of_filter in Hin as [Hp Hin].
    simpl in *. inversion Heq; subst. split; [done|].
    exists f. split_and!; [done..|]. by apply Is_true_true.
  - intros [-> (f & Hin & -> & Hp)]. exists (name, f). split; [done|].
    apply list_elem_of_filter. split; [|done]. simpl. by rewrite Hp.
Qed.

Lemma run_post_populate (form : Form) (l : loc) (st : State) (o : PyObj) :
  self_object st = Some (Some l) →
  heap st !! l = Some o →
  match post_populate form with
  | Some hook => obj ← get_self_object; call_post_populate hook obj
  | None => ret tt
  end st
  = (Ok tt, with_heap_trace st
              (<[l := after_hook (post_populate form) o]> (heap st))
              (trace st ++ hook_events (post_populate form) l)).
Proof.
  intros Hso Hl. destruct (post_populate form) as [hook|]; simpl.
  - rewrite (run_bind_ok _ _ _ _ _ (run_get_self_object st _ Hso)).
    unfold call_post_populate. rewrite run_bind. simpl.
    unfold update_obj, set_heap, modify, with_heap_trace; simpl.
    by rewrite (alter_lookup_insert _ _ _ o Hl).
  - unfold ret. by rewrite (with_heap_trace_id st l o).
Qed.

Lemma populates_spec (self : View) (request : Request) (name : string)
    (field : Field) :
  BaseUpdateView.populates self request name field = true
  ↔ name ∈ default [] (always_update self)
    ∨ (name ∈ (POST request).*1
       ∧ ¬ (is_FileField field = true ∧ data field = VStr "")).
Proof.
  unfold BaseUpdateView.populates.
  rewrite orb_true_iff, andb_true_iff, negb_true_iff, andb_false_iff.
  rewrite !bool_decide_eq_true, bool_decide_eq_false.
  split; (intros [?|[? Hf]]; [by left|right; split; [done|]]).
  - intros [Hfile Hdata]. destruct Hf; congruence.
  - destruct (is_FileField field); [|by left].
    right. intros Hd. apply Hf. done.
Qed.

Lemma fields_functional (fs : list (string * Field)) (name : string)
    (f1 f2 : Field) :
  NoDup fs.*1 → (name, f1) ∈ fs → (name, f2) ∈ fs → f1 = f2.
Proof.
  induction fs as [|[n f] fs IH]; intros Hnd H1 H2.
  - by apply elem_of_nil in H1.
  - rewrite fmap_cons in Hnd. apply NoDup_cons in Hnd as [Hn Hnd].
    apply elem_of_cons in H1 as [E1|H1]; apply elem_of_cons in H2 as [E2|H2].
    + congruence.
    + inversion E1; subst. destruct Hn.
      apply (list_elem_of_fmap_2 fst _ _ H2).
    + inversion E2; subst. destruct Hn.
      apply (list_elem_of_fmap_2 fst _ _ H1).
    + by apply IH.
Qed.

(** C1.  With [partial_updates] on, [populate_obj] copies a field of the
    form onto the object if and only if its name is in [always_update],
    or it is among the keys of the request's POST data and the field is
    not a file field whose data is the empty string; every other
    attribute of the object is left as it was.  [o'] is the object as
    the loop leaves it and [evs] the assignments it made; the hook of
    the form, if it has one, runs after. *)
Theorem partial_update_populates (self : View) (request : Request)
    (form : Form) (st : State) (l : loc) (o : PyObj) :
  partial_updates self = true →
  NoDup (_fields form).*1 →
  self_object st = Some (Some l) →
  heap st !! l = Some o →
  ∃ (o' : PyObj) (evs : list Event),
    BaseUpdateView.populate_obj self request form st
    = (Ok tt, with_heap_trace st
                (<[l := after_hook (post_populate form) o']> (heap st))
                (trace st ++ evs ++ hook_events (post_populate form) l))
    ∧ __class__ o' = __class__ o
    ∧ (∀ name field, (name, field) ∈ _fields form →
         let copied :=
           name ∈ default [] (always_update self)
           ∨ (name ∈ (POST request).*1
              ∧ ¬ (is_FileField field = true ∧ data field = VStr "")) in
         (copied → __dict__ o' !! name = Some (data field)
                   ∧ EvSetattr l name (data field) ∈ evs)
         ∧ (¬ copied → __dict__ o' !! name = __dict__ o !! name
                       ∧ ∀ v, EvSetattr l name v ∉ evs))
    ∧ (∀ name, name ∉ (_fields form).*1 →
         __dict__ o' !! name = __dict__ o !! name
         ∧ ∀ v, EvSetattr l name v ∉ evs).
Proof.
  intros Hpartial Hnd Hso Hl.
  set (p := BaseUpdateView.populates self request).
  exists (populated p (_fields form) o), (assignments p l (_fields form)).
  split_and!.
  - unfold BaseUpdateView.populate_obj. rewrite Hpartial. simpl.
    rewrite run_bind. fold p.
    rewrite (populate_loop p l (_fields form) st o Hso Hl).
    rewrite (run_post_populate form l _ (populated p (_fields form) o));
      [|done|apply lookup_insert_eq].
    unfold with_heap_trace; simpl.
    by rewrite insert_insert_eq, app_assoc.
  - apply populated_class.
  - intros name field Hin copied. subst copied.
    rewrite <- populates_spec. fold p.
    rewrite (populated_lookup_in p _ name field o Hnd Hin). split.
    + intros Hp. rewrite Hp. split; [done|].
      apply assignments_elem_of. split; [done|]. by exists field.
    + intros Hp. apply not_true_is_false in Hp. rewrite Hp.
      split; [done|]. intros v Hv.
      apply assignments_elem_of in Hv as [_ (f' & Hin' & _ & Hp')].
      assert (f' = field) as ->; [|congruence].
      by apply (fields_functional _ name f' field Hnd).
  - intros name Hn. split; [by apply populated_lookup_notin|].
    intros v Hv. apply assignments_elem_of in Hv as [_ (f' & Hin' & _)].
    apply Hn. apply (list_elem_of_fmap_2 fst _ _ Hin').
Qed.

Lemma partial_update_populates_witness :
  ∃ (o' : PyObj) (st' : State),
    BaseUpdateView.populate_obj partial_view book_request book_form
      (editing book) = (Ok tt, st')
    ∧ heap st' !! 0%nat = Some o'
    ∧ __dict__ o' !! "name" = Some (VStr "new")
    ∧ __dict__ o' !! "slug" = Some (VStr "new")
    ∧ __dict__ o' !! "pages" = Some (VStr "100")
    ∧ __dict__ o' !! "cover" = Some (VStr "a.png").
Proof.
  destruct (partial_update_populates partial_view book_request book_form
              (editing book) 0%nat book) as (o' & evs & Hrun & _ & Hf & _).
  - reflexivity.
  - compute_done.
  - reflexivity.
  - reflexivity.
  - exists o'. eexists. split; [exact Hrun|].
    split; [apply lookup_insert_eq|].
    split_and!.
    + apply (Hf "name" {| is_FileField := false; data := VStr "new" |});
        [compute_done|]. right. split; [compute_done|]. by intros [? _].
    + apply (Hf "slug" {| is_FileField := false; data := VStr "new" |});
        [compute_done|]. left. compute_done.
    + apply (Hf "pages" {| is_FileField := false; data := VNone |});
        [compute_done|]. intros [Hc|[Hc _]]; revert Hc; compute_done.
    + apply (Hf "cover" {| is_FileField := true; data := VStr "" |});
        [compute_done|]. intros [Hc|[_ Hc]]; [revert Hc; compute_done|].
      by apply Hc.
Defined.

Lemma assignments_every (l : loc) (fs : list (string * Field)) :
  assignments every l fs = (λ nf, EvSetattr l nf.1 (data nf.2)) <$> fs.
Proof.
  induction fs as [|[n f] fs IH]; [done|].
  rewrite assignments_cons. simpl. by rewrite IH.
Qed.

Lemma run_Form_populate_obj (form : Form) (l : loc) :
  ∀ (st : State) (o : PyObj),
    heap st !! l = Some o →
    Form_populate_obj form (Some l) st
    = (Ok tt, with_heap_trace st
                (<[l := populated every (_fields form) o]> (heap st))
                (trace st ++ assignments every l (_fields form))).
Proof.
  unfold Form_populate_obj.
  induction (_fields form) as [|[n f] fs IH]; intros st o Hl.
  - unfold assignments; rewrite filter_nil; simpl. unfold ret.
    by rewrite (with_heap_trace_id st l o).
  - cbn [for_each]. rewrite run_bind. cbn [fst snd].
    rewrite assignments_cons. simpl populated. unfold every at 1 3.
    rewrite (run_Field_populate_obj f l n st o Hl).
    erewrite IH; [|apply lookup_insert_eq].
    unfold with_heap_trace; simpl. rewrite insert_insert_eq.
    by rewrite <- app_assoc.
Qed.

(** C8.  With [partial_updates] off, populating copies the data of every
    field of the form onto the object, over whatever was there, for a
    create ([ModelFormMixin.populate_obj]) and for an update
    ([BaseUpdateView.populate_obj], whatever the request submitted). *)
Theorem full_update_populates (self : View) (form : Form) (st : State)
    (l : loc) (o : PyObj) :
  partial_updates self = false →
  NoDup (_fields form).*1 →
  self_object st = Some (Some l) →
  heap st !! l = Some o →
  ∃ o' : PyObj,
    ModelFormMixin.populate_obj form st
    = (Ok tt, with_heap_trace st (<[l := o']> (heap st))
                (trace st
                 ++ ((λ nf, EvSetattr l nf.1 (data nf.2)) <$> _fields form)))
    ∧ (∀ request : Request,
         BaseUpdateView.populate_obj self request form st
         = (Ok tt, with_heap_trace st
                     (<[l := after_hook (post_populate form) o']> (heap st))
                     (trace st
                      ++ ((λ nf, EvSetattr l nf.1 (data nf.2))
                            <$> _fields form)
                      ++ hook_events (post_populate form) l)))
    ∧ __class__ o' = __class__ o
    ∧ (∀ name field, (name, field) ∈ _fields form →
         __dict__ o' !! name = Some (data field))
    ∧ (∀ name, name ∉ (_fields form).*1 →
         __dict__ o' !! name = __dict__ o !! name).
Proof.
  intros Hfull Hnd Hso Hl.
  exists (populated every (_fields form) o). split_and!.
  - unfold ModelFormMixin.populate_obj.
    rewrite (run_bind_ok _ _ _ _ _ (run_get_self_object st _ Hso)).
    rewrite (run_Form_populate_obj form l st o Hl).
    by rewrite assignments_every.
  - intros request. unfold BaseUpdateView.populate_obj.
    rewrite Hfull. simpl. rewrite run_bind.
    rewrite (run_bind_ok _ _ _ _ _ (run_get_self_object st _ Hso)).
    rewrite (run_Form_populate_obj form l st o Hl).
    rewrite (run_post_populate form l _
               (populated every (_fields form) o));
      [|done|apply lookup_insert_eq].
    unfold with_heap_trace; simpl.
    by rewrite insert_insert_eq, assignments_every, app_assoc.
  - apply populated_class.
  - intros name field Hin.
    by rewrite (populated_lookup_in every _ name field o Hnd Hin).
  - intros name Hn. by apply populated_lookup_notin.
Qed.

Lemma full_update_populates_witness :
  ∃ (o' : PyObj) (st' : State),
    ModelFormMixin.populate_obj book_form (editing book) = (Ok tt, st')
    ∧ heap st' !! 0%nat = Some o'
    ∧ __dict__ o' !! "name" = Some (VStr "new")
    ∧ __dict__ o' !! "pages" = Some VNone
    ∧ __dict__ o' !! "cover" = Some (VStr "").
Proof.
  destruct (full_update_populates view book_form (editing book) 0%nat book)
    as (o' & Hrun & _ & _ & Hf & _).
  - reflexivity.
  - compute_done.
  - reflexivity.
  - reflexivity.
  - exists o'. eexists. split; [exact Hrun|].
    split; [apply lookup_insert_eq|].
    split_and!.
    + by apply (Hf "name" {| is_FileField := false; data := VStr "new" |});
        compute_done.
    + by apply (Hf "pages" {| is_FileField := false; data := VNone |});
        compute_done.
    + by apply (Hf "cover" {| is_FileField := true; data := VStr "" |});
        compute_done.
Defined.

(** ** Resolving the form class *)

(** C3.  [get_form_class] returns the configured form class when there is
    one; otherwise it builds a form class around a model: the configured
    model if there is one, else the class of the object the view holds,
    else the model that [get_model_from_obj] finds in [get_query()]. *)
Theorem form_class_resolution `{!Collaborators} (self : View) (st : State) :
  (∀ fc, form_class self = Some fc →
     ModelFormMixin.get_form_class self st = (Ok (Some fc), st))
  ∧ (form_class self = None →
     (∀ m, model self = Some m →
        ModelFormMixin.get_form_class self st
        = (Ok (Some (ModelFormWithModel m (fields self))), st))
     ∧ (model self = None →
        (∀ l o, self_object st = Some (Some l) → heap st !! l = Some o →
           ModelFormMixin.get_form_class self st
           = (Ok (Some (ModelFormWithModel (__class__ o) (fields self))), st))
        ∧ (self_object st = None ∨ self_object st = Some None →
           (∀ q m, get_query self st = Ok q → get_model_from_obj q = Ok m →
              ModelFormMixin.get_form_class self st
              = (Ok (Some (ModelFormWithModel m (fields self))), st))
           ∧ (∀ q e, get_query self st = Ok q →
                get_model_from_obj q = Raise e →
                ModelFormMixin.get_form_class self st = (Raise e, st))
           ∧ (∀ e, get_query self st = Raise e →
                ModelFormMixin.get_form_class self st = (Raise e, st))))).
Proof.
  unfold ModelFormMixin.get_form_class. split.
  { intros fc ->. reflexivity. }
  intros ->. split.
  { intros m ->. reflexivity. }
  intros ->. split.
  { intros l o Hso Hl. rewrite run_bind. unfold gets at 1. rewrite Hso.
    rewrite run_bind.
    by rewrite (run_bind_ok _ _ _ _ _ (run_deref st l o Hl)). }
  intros Hso.
  assert (
    (obj ← gets self_object;
     model ← match None, obj with
             | Some m, _ => ret m
             | None, Some (Some l) => o ← deref l; ret (__class__ o)
             | None, _ => q ← reads (get_query self);
                          lift (get_model_from_obj q)
             end;
     ret (Some (ModelFormWithModel model (fields self)))) st
    = match get_query self st with
      | Ok q => match get_model_from_obj q with
                | Ok m => (Ok (Some (ModelFormWithModel m (fields self))), st)
                | Raise e => (Raise e, st)
                end
      | Raise e => (Raise e, st)
      end) as Hrun.
  { rewrite run_bind. unfold gets at 1.
    destruct Hso as [-> | ->]; rewrite !run_bind; unfold reads, lift;
      destruct (get_query self st) as [q|e]; try done;
      by destruct (get_model_from_obj q). }
  split_and!.
  - intros q m Hq Hm. by rewrite Hrun, Hq, Hm.
  - intros q e Hq Hm. by rewrite Hrun, Hq, Hm.
  - intros e Hq. by rewrite Hrun, Hq.
Qed.

Lemma form_class_resolution_witness :
  ModelFormMixin.get_form_class
    {| initial := []; form_class := Some (DeclaredForm "AuthorForm" None);
       success_url := None; prefix := None; endpoint := false;
       template_name := None; model := Some Painting; fields := None;
       partial_updates := false; always_update := None |} (editing book)
  = (Ok (Some (DeclaredForm "AuthorForm" None)), editing book)
  ∧ ModelFormMixin.get_form_class
      {| initial := []; form_class := None;
         success_url := None; prefix := None; endpoint := false;
         template_name := None; model := Some Painting; fields := Some ["name"];
         partial_updates := false; always_update := None |} (editing book)
    = (Ok (Some (ModelFormWithModel Painting (Some ["name"]))), editing book)
  ∧ ModelFormMixin.get_form_class view (editing book)
    = (Ok (Some (ModelFormWithModel Book None)), editing book)
  ∧ ModelFormMixin.get_form_class view (start ∅)
    = (Ok (Some (ModelFormWithModel Author None)), start ∅).
Proof.
  split_and!.
  - by apply form_class_resolution.
  - by apply form_class_resolution.
  - by apply (proj1 (proj2 (proj2 (@form_class_resolution bench view (editing book))
                                    eq_refl) eq_refl) 0%nat book).
  - apply (proj1 (proj2 (proj2 (proj2 (@form_class_resolution bench view (start ∅))
                                         eq_refl) eq_refl) (or_introl eq_refl))
             Author Author); reflexivity.
Defined.

(** ** Computations that only read *)

Lemma reads_only_run {A} (m : M A) (st : State) (r : result A) :
  reads_only m → (m st).1 = r → m st = (r, st).
Proof.
  intros Hm Hr. specialize (Hm st). destruct (m st) as [r' st'].
  simpl in *. by subst.
Qed.

Lemma reads_only_ret {A} (a : A) : reads_only (ret a).
Proof. by intros st. Qed.

Lemma reads_only_mret {A} (a : A) : reads_only (mret a).
Proof. by intros st. Qed.

Lemma reads_only_raise {A} (e : exn) : reads_only (@raise A e).
Proof. by intros st. Qed.

Lemma reads_only_lift {A} (r : result A) : reads_only (lift r).
Proof. by intros st. Qed.

Lemma reads_only_gets {A} (f : State → A) : reads_only (gets f).
Proof. by intros st. Qed.

Lemma reads_only_reads {A} (f : State → result A) : reads_only (reads f).
Proof. by intros st. Qed.

Lemma reads_only_get_self_object : reads_only get_self_object.
Proof. intros st. unfold get_self_object. by destruct (self_object st). Qed.

Lemma reads_only_deref (l : loc) : reads_only (deref l).
Proof. intros st. unfold deref. by destruct (heap st !! l). Qed.

Lemma reads_only_bind {A B} (m : M A) (k : A → M B) :
  reads_only m → (∀ a, reads_only (k a)) → reads_only (m ≫= k).
Proof.
  intros Hm Hk st. rewrite run_bind. specialize (Hm st).
  destruct (m st) as [[a|e] st']; simpl in *; subst; [apply Hk|done].
Qed.

Lemma reads_only_try_except {A} (m : M A) (h : exn → M A) :
  reads_only m → (∀ e, reads_only (h e)) → reads_only (try_except m h).
Proof.
  intros Hm Hh st. unfold try_except. specialize (Hm st).
  destruct (m st) as [[a|e] st']; simpl in *; subst; [done|apply Hh].
Qed.

Create HintDb reads discriminated.
#[export] Hint Resolve reads_only_ret reads_only_mret reads_only_raise
  reads_only_lift reads_only_gets reads_only_reads
  reads_only_get_self_object reads_only_deref : reads.

Ltac reads_only :=
  repeat first
    [ progress eauto with reads
    | apply reads_only_bind; [|intros ?]
    | apply reads_only_try_except; [|intros ?]
    | match goal with
      | |- reads_only (match ?x with _ => _ end) => destruct x
      | |- reads_only (if ?x then _ else _) => destruct x
      end ].

Lemma reads_only_FormMixin_get_form_kwargs (self : View) (request : Request) :
  reads_only (FormMixin.get_form_kwargs self request).
Proof. unfold FormMixin.get_form_kwargs. reads_only. Qed.

Lemma reads_only_ModelFormMixin_get_form_kwargs (self : View)
    (request : Request) :
  reads_only (ModelFormMixin.get_form_kwargs self request).
Proof.
  unfold ModelFormMixin.get_form_kwargs.
  pose proof (reads_only_FormMixin_get_form_kwargs self request).
  reads_only.
Qed.

Section by_class_reads.
Context `{!Collaborators}.

Lemma reads_only_get_form_class (cls : form_view) (self : View) :
  reads_only (get_form_class_of cls self).
Proof.
  destruct cls; simpl;
    unfold FormView.get_form_class, CreateView.get_form_class,
      UpdateView.get_form_class, FormMixin.get_form_class,
      ModelFormMixin.get_form_class; reads_only.
Qed.

Lemma reads_only_get_form_kwargs (cls : form_view) (self : View)
    (request : Request) :
  reads_only (get_form_kwargs_of cls self request).
Proof.
  destruct cls; simpl;
    auto using reads_only_FormMixin_get_form_kwargs,
      reads_only_ModelFormMixin_get_form_kwargs.
Qed.

Lemma reads_only_get_form (cls : form_view) (self : View) (request : Request)
    (fc : option FormClass) :
  reads_only (get_form_of cls self request fc).
Proof.
  pose proof (reads_only_get_form_kwargs cls self request) as Hkw.
  destruct cls; simpl in *;
    unfold FormView.get_form, CreateView.get_form, UpdateView.get_form,
      FormMixin.get_form; reads_only.
Qed.

Lemma reads_only_get_success_url (cls : form_view) (self : View) :
  reads_only (get_success_url_of cls self).
Proof.
  destruct cls; simpl;
    unfold FormView.get_success_url, CreateView.get_success_url,
      UpdateView.get_success_url, FormMixin.get_success_url,
      ModelFormMixin.get_success_url; reads_only.
Qed.

End by_class_reads.

(** ** Handling a request *)

Section handlers.
Context `{!Collaborators}.

Lemma run_entered {A} (cls : form_view) (self : View) (request : Request)
    (st st1 : State) (k : M A) :
  entered cls self request st = Ok st1 →
  match cls with
  | a_FormView => k
  | a_CreateView => set_object None;; k
  | a_UpdateView => l ← reads (get_object self request);
                    set_object (Some l);; k
  end st = k st1.
Proof.
  destruct cls; simpl.
  - by intros [= ->].
  - by intros [= <-].
  - rewrite run_bind. unfold reads.
    destruct (get_object self request st) as [l|e]; [|done].
    by intros [= <-].
Qed.

Lemma run_post (cls : form_view) (self : View) (request : Request)
    (st st1 : State) (fc : option FormClass) (form : Form) :
  entered cls self request st = Ok st1 →
  (get_form_class_of cls self st1).1 = Ok fc →
  (get_form_of cls self request fc st1).1 = Ok form →
  post_of cls self request st
  = (if validate form then form_valid_of cls self request form st1
     else FormMixin.form_invalid self form st1)
  ∧ put_of cls self request st = post_of cls self request st.
Proof.
  intros Hen Hfc Hform.
  apply reads_only_run in Hfc; [|apply reads_only_get_form_class].
  apply reads_only_run in Hform; [|apply reads_only_get_form].
  split; [|by destruct cls].
  destruct cls; simpl in *.
  - injection Hen as <-. unfold FormView.post, ProcessFormView.post.
    rewrite (run_bind_ok _ _ _ _ _ Hfc), (run_bind_ok _ _ _ _ _ Hform).
    by destruct (validate form).
  - unfold CreateView.post, BaseCreateView.post.
    rewrite (run_entered a_CreateView self request st st1 _ Hen).
    unfold ProcessFormView.post.
    rewrite (run_bind_ok _ _ _ _ _ Hfc), (run_bind_ok _ _ _ _ _ Hform).
    by destruct (validate form).
  - unfold UpdateView.post, BaseUpdateView.post.
    rewrite (run_entered a_UpdateView self request st st1 _ Hen).
    unfold ProcessFormView.post.
    rewrite (run_bind_ok _ _ _ _ _ Hfc), (run_bind_ok _ _ _ _ _ Hform).
    by destruct (validate form).
Qed.

(** C4.  A POST or PUT whose form fails validation.  Without [endpoint]
    the form is rendered again with its errors, a 200.  With [endpoint]
    the handler makes the 400 and assigns [json.dumps({'errors':
    form.errors})], a [str], to its body: on Python 2 the answer is that
    400 with the JSON object as body; on Python 3 the body refuses text
    and [TypeError] is raised in place of the 400.  The state is the one
    the handler entered with. *)
Theorem invalid_form_outcome (cls : form_view) (self : View)
    (request : Request) (st st1 : State) (fc : option FormClass)
    (form : Form) :
  entered cls self request st = Ok st1 →
  (get_form_class_of cls self st1).1 = Ok fc →
  (get_form_of cls self request fc st1).1 = Ok form →
  validate form = false →
  let outcome :=
    if endpoint self
    then match python with
         | Python2 =>
             Ok (HTTPBadRequest
                   (Some (JObject
                      [("errors",
                        JObject ((λ e, (e.1, JArray (JString <$> e.2)))
                                   <$> errors form))])))
         | Python3 =>
             Raise (TypeError
               "You cannot set Response.body to a text object (use Response.text)")
         end
    else Ok (Rendered {| ctx_form := form |}) in
  post_of cls self request st = (outcome, st1)
  ∧ put_of cls self request st = (outcome, st1)
  ∧ ∀ response, outcome = Ok response →
      status_code response = (if endpoint self then 400 else 200)%Z.
Proof.
  intros Hen Hfc Hform Hinvalid outcome.
  destruct (run_post cls self request st st1 fc form Hen Hfc Hform)
    as [Hpost Hput].
  rewrite Hput, Hpost, Hinvalid. subst outcome.
  unfold FormMixin.form_invalid, lift, set_body.
  destruct (endpoint self); simpl.
  - destruct python; split_and!; try done; by intros ? [= <-].
  - split_and!; try done. by intros ? [= <-].
Qed.

End handlers.

Lemma invalid_form_outcome_witness :
  CreateView.post endpoint_view (post_request "") (start ∅)
  = (Raise (TypeError
       "You cannot set Response.body to a text object (use Response.text)"),
     with_object (start ∅) None)
  ∧ @CreateView.post bench_python2 endpoint_view (post_request "") (start ∅)
    = (Ok (HTTPBadRequest
             (Some (JObject
                [("errors",
                  JObject [("name",
                            JArray [JString "This field is required."])])]))),
       with_object (start ∅) None)
  ∧ UpdateView.put view (post_request "") (start {[ 0%nat := book ]})
    = (Ok (Rendered
             {| ctx_form :=
                  name_form
                    {| kw_data := []; kw_prefix := ""; kw_obj := Some 0%nat;
                       kw_formdata := Some [("name", VStr "")];
                       kw_instance := Some (Some 0%nat) |}
                    {[ 0%nat := book ]} |}),
       with_object (start {[ 0%nat := book ]}) (Some 0%nat)).
Proof.
  split_and!.
  - edestruct (invalid_form_outcome a_CreateView endpoint_view
                 (post_request "") (start ∅)) as [Hpost _];
      [reflexivity..|exact Hpost].
  - edestruct (@invalid_form_outcome bench_python2 a_CreateView
                 endpoint_view (post_request "") (start ∅)) as [Hpost _];
      [reflexivity..|exact Hpost].
  - edestruct (invalid_form_outcome a_UpdateView view
                 (post_request "") (start {[ 0%nat := book ]}))
      as (_ & Hput & _); [reflexivity..|exact Hput].
Defined.

Section get_handler.
Context `{!Collaborators}.

Lemma run_get (cls : form_view) (self : View) (request : Request)
    (st st1 : State) :
  entered cls self request st = Ok st1 →
  get_of cls self request st
  = FormMixin.get self
      (ProcessFormView.get (get_form_class_of cls self)
         (get_form_of cls self request)) st1.
Proof.
  intros Hen. destruct cls; simpl in *.
  - by injection Hen as <-.
  - unfold CreateView.get, BaseCreateView.get.
    by rewrite (run_entered a_CreateView self request st st1 _ Hen).
  - unfold UpdateView.get, BaseUpdateView.get.
    by rewrite (run_entered a_UpdateView self request st st1 _ Hen).
Qed.

Lemma run_get_form_kwargs (cls : form_view) (self : View)
    (request : Request) (st : State) :
  ∃ kwargs, get_form_kwargs_of cls self request st = (Ok kwargs, st)
    ∧ kw_data kwargs = initial self
    ∧ kw_prefix kwargs = default "" (prefix self)
    ∧ kw_obj kwargs = default None (self_object st)
    ∧ kw_formdata kwargs
      = if bool_decide (upper (method request) ∈ ["POST"; "PUT"])
        then Some (POST request) else None.
Proof.
  destruct cls; simpl;
    unfold FormView.get_form_kwargs, CreateView.get_form_kwargs,
      UpdateView.get_form_kwargs, ModelFormMixin.get_form_kwargs,
      FormMixin.get_form_kwargs;
    rewrite ?run_bind; simpl; rewrite ?run_bind; simpl;
    try destruct (self_object st); by eexists.
Qed.

(** C9, as the code has it.  A GET on a form view that is not an
    endpoint, or that has a template name, is answered with the rendered
    form (status 200): the form class is resolved and bound with no
    submitted data.  A GET on an endpoint without a template name is
    answered 501 and no form is built. *)
Theorem get_renders_form (cls : form_view) (self : View)
    (request : Request) (st st1 : State) :
  method request = "GET" →
  entered cls self request st = Ok st1 →
  (endpoint self = true ∧ truthy (template_name self) = false →
     get_of cls self request st = (Ok HTTPNotImplemented, st1)
     ∧ status_code HTTPNotImplemented = 501%Z)
  ∧ (endpoint self = false ∨ truthy (template_name self) = true →
     ∀ fc form,
       (get_form_class_of cls self st1).1 = Ok (Some fc) →
       (get_form_of cls self request (Some fc) st1).1 = Ok form →
       ∃ kwargs,
         get_form_kwargs_of cls self request st1 = (Ok kwargs, st1)
         ∧ kw_formdata kwargs = None
         ∧ instantiate fc kwargs (heap st1) = Ok form
         ∧ get_of cls self request st
           = (Ok (Rendered {| ctx_form := form |}), st1)
         ∧ status_code (Rendered {| ctx_form := form |}) = 200%Z).
Proof.
  intros Hmethod Hen. rewrite (run_get cls self request st st1 Hen).
  unfold FormMixin.get. split.
  { intros [-> ->]. done. }
  intros Hguard fc form Hfc Hform.
  assert (endpoint self && negb (truthy (template_name self)) = false)
    as ->.
  { destruct Hguard as [-> | ->]; [done|]. by rewrite andb_false_r. }
  apply reads_only_run in Hfc; [|apply reads_only_get_form_class].
  apply reads_only_run in Hform; [|apply reads_only_get_form].
  destruct (run_get_form_kwargs cls self request st1)
    as (kwargs & Hkw & _ & _ & _ & Hfd).
  rewrite Hmethod in Hfd. simpl in Hfd.
  exists kwargs. split_and!; [done|done| |  |done].
  - revert Hform. destruct cls; simpl in *;
      unfold FormView.get_form, CreateView.get_form, UpdateView.get_form,
        FormMixin.get_form;
      rewrite (run_bind_ok _ _ _ _ _ Hkw), run_bind; unfold gets, lift;
      by intros [= ->].
  - unfold ProcessFormView.get.
    by rewrite (run_bind_ok _ _ _ _ _ Hfc), (run_bind_ok _ _ _ _ _ Hform).
Qed.

End get_handler.

(** C9, as the spec has it, fails: an endpoint view without a template
    name answers a GET with 501, though its form class resolves and its
    form binds. *)

Lemma get_of_endpoint_is_not_rendered :
  (FormView.get_form_class bare_endpoint (start ∅)).1
  = Ok (Some (DeclaredForm "NameForm" None))
  ∧ (∃ form,
       (FormView.get_form bare_endpoint get_request
          (Some (DeclaredForm "NameForm" None)) (start ∅)).1 = Ok form)
  ∧ (FormView.get bare_endpoint get_request (start ∅)).1
    = Ok HTTPNotImplemented
  ∧ ¬ (∃ context,
         (FormView.get bare_endpoint get_request (start ∅)).1
         = Ok (Rendered context))
  ∧ status_code HTTPNotImplemented ≠ 200%Z.
Proof.
  split_and!.
  - reflexivity.
  - eexists. reflexivity.
  - reflexivity.
  - intros [context Hget]. discriminate Hget.
  - discriminate.
Qed.

Lemma get_renders_form_witness :
  CreateView.get view get_request (start ∅)
  = (Ok (Rendered
           {| ctx_form :=
                name_form
                  {| kw_data := []; kw_prefix := ""; kw_obj := None;
                     kw_formdata := None; kw_instance := Some None |} ∅ |}),
     with_object (start ∅) None)
  ∧ UpdateView.get endpoint_view get_request (start {[ 0%nat := book ]})
    = (Ok HTTPNotImplemented,
       with_object (start {[ 0%nat := book ]}) (Some 0%nat)).
Proof.
  split.
  - edestruct (proj2 (get_renders_form a_CreateView view get_request
                        (start ∅) (with_object (start ∅) None)
                        eq_refl eq_refl) (or_introl eq_refl))
      as (kwargs & _ & _ & _ & Hget & _); [reflexivity..|exact Hget].
  - destruct (get_renders_form a_UpdateView endpoint_view get_request
                (start {[ 0%nat := book ]})
                (with_object (start {[ 0%nat := book ]}) (Some 0%nat)))
      as [H501 _]; [reflexivity..|].
    by apply H501.
Defined.

(** ** Saving: add, then flush *)

Lemma keyed_refl (o : PyObj) : keyed o o.
Proof. by split_and!. Qed.

Lemma keyed_trans (o1 o2 o3 : PyObj) : keyed o1 o2 → keyed o2 o3 → keyed o1 o3.
Proof.
  intros (Hc1 & Hd1 & Hk1) (Hc2 & Hd2 & Hk2). split_and!.
  - congruence.
  - intros n Hn. by rewrite Hd2, Hd1.
  - intros Hpk. specialize (Hk1 Hpk). subst o2. auto.
Qed.

Lemma has_pk_setattr_id (o : PyObj) (k : Z) :
  SessionOps.has_pk (setattr o "id" (VInt k)) = true.
Proof. unfold SessionOps.has_pk. simpl. by rewrite lookup_insert_eq. Qed.

Lemma insert_row_lookup (hk : gmap loc PyObj * Z) (l x : loc) (o : PyObj) :
  hk.1 !! x = Some o →
  ∃ o', (SessionOps.insert_row hk l).1 !! x = Some o' ∧ keyed o o'
        ∧ (x = l → SessionOps.has_pk o' = true).
Proof.
  intros Hx. unfold SessionOps.insert_row.
  destruct (hk.1 !! l) as [ol|] eqn:Hl.
  - destruct (SessionOps.has_pk ol) eqn:Hpk.
    + exists o. split_and!; [done|apply keyed_refl|].
      intros ->. congruence.
    + destruct (decide (x = l)) as [->|Hne].
      * assert (ol = o) as -> by congruence.
        exists (setattr o "id" (VInt hk.2)). simpl.
        rewrite lookup_insert_eq. split_and!; [done| |].
        -- split_and!; [done| |congruence].
           intros n Hn. simpl. by rewrite lookup_insert_ne.
        -- intros _. apply has_pk_setattr_id.
      * exists o. simpl. rewrite lookup_insert_ne by done.
        split_and!; [done|apply keyed_refl|done].
  - exists o. split_and!; [done|apply keyed_refl|].
    intros ->. congruence.
Qed.

Lemma flush_rows_lookup (pending : list loc) :
  ∀ (hk : gmap loc PyObj * Z) (x : loc) (o : PyObj),
    hk.1 !! x = Some o →
    ∃ o', (foldl SessionOps.insert_row hk pending).1 !! x = Some o'
          ∧ keyed o o' ∧ (x ∈ pending → SessionOps.has_pk o' = true).
Proof.
  induction pending as [|l pending IH]; intros hk x o Hx.
  - exists o. split_and!; [done|apply keyed_refl|]. by intros ?%elem_of_nil.
  - destruct (insert_row_lookup hk l x o Hx) as (o1 & H1 & Hk1 & Hpk1).
    destruct (IH _ x o1 H1) as (o' & H' & Hk' & Hpk').
    exists o'. simpl. split_and!; [done|by eapply keyed_trans|].
    intros [->|Hin]%elem_of_cons; [|by auto].
    specialize (Hpk1 eq_refl). destruct Hk' as (_ & _ & Hsame).
    by rewrite (Hsame Hpk1).
Qed.

Lemma run_add (l : loc) (st : State) :
  SessionOps.add l st
  = (Ok tt,
     {| heap := heap st;
        db_session :=
          {| sess_new := sess_new (db_session st) ++ [l];
             sess_identity := sess_identity (db_session st);
             sess_deleted := sess_deleted (db_session st);
             next_pk := next_pk (db_session st) |};
        self_object := self_object st;
        trace := trace st ++ [EvAdd l] |}).
Proof. reflexivity. Qed.

Lemma run_flush (st : State) :
  SessionOps.flush st
  = (Ok tt,
     let s := db_session st in
     let hk := foldl SessionOps.insert_row (heap st, next_pk s) (sess_new s) in
     {| heap := hk.1;
        db_session :=
          {| sess_new := [];
             sess_identity :=
               (sess_identity s ∖ sess_deleted s) ∪ list_to_set (sess_new s);
             sess_deleted := ∅;
             next_pk := hk.2 |};
        self_object := self_object st;
        trace := trace st ++ [EvFlush] |}).
Proof. reflexivity. Qed.

Lemma run_save (st : State) (l : loc) (o : PyObj) :
  self_object st = Some (Some l) →
  heap st !! l = Some o →
  ∃ st2, ModelFormMixin.save st = (Ok (Some l), st2)
         ∧ saved st st2 l o [].
Proof.
  intros Hso Hl. unfold ModelFormMixin.save.
  rewrite (run_bind_ok _ _ _ _ _ (run_get_self_object st _ Hso)).
  rewrite run_bind, run_add, run_bind, run_flush. cbn zeta.
  destruct (flush_rows_lookup (sess_new (db_session st) ++ [l])
              (heap st, next_pk (db_session st)) l o Hl)
    as (o2 & H2 & Hk & Hpk).
  erewrite run_bind_ok; [|by apply run_get_self_object].
  eexists. split; [reflexivity|]. unfold saved; simpl. split_and!.
  - done.
  - exists o2. split_and!; [done..|]. apply Hpk.
    apply elem_of_app. right. apply list_elem_of_singleton. done.
  - by rewrite <- app_assoc.
  - rewrite elem_of_union, elem_of_list_to_set, elem_of_app.
    right. right. by apply list_elem_of_singleton.
  - done.
Qed.

(** ** A valid form: populate, save, answer *)

Lemma fresh_loc_fresh (h : gmap loc PyObj) : h !! fresh_loc h = None.
Proof. apply not_elem_of_dom. unfold fresh_loc. apply is_fresh. Qed.

Lemma run_populate_save {A} (populate : M unit) (k : M A) (st : State)
    (l : loc) (o : PyObj) (evs : list Event) :
  self_object st = Some (Some l) →
  populate st
  = (Ok tt, with_heap_trace st (<[l := o]> (heap st)) (trace st ++ evs)) →
  ∃ st2, (populate;; ModelFormMixin.save;; k) st = k st2
         ∧ saved st st2 l o evs.
Proof.
  intros Hso Hpop. rewrite (run_bind_ok _ _ _ _ _ Hpop).
  destruct (run_save
              (with_heap_trace st (<[l := o]> (heap st)) (trace st ++ evs))
              l o Hso) as (st2 & Hsave & Hso2 & Ho2 & Htr & Hid & Hnew).
  { apply lookup_insert_eq. }
  rewrite (run_bind_ok _ _ _ _ _ Hsave). exists st2. split; [done|].
  unfold saved. split_and!; [done..| |done|done].
  rewrite Htr. simpl. by rewrite <- !app_assoc.
Qed.

Section form_valid.
Context `{!Collaborators}.

Lemma run_form_valid_existing (self : View) (populate : Form → M unit)
    (super : Form → M Response) (form : Form) (st : State) (l : loc) :
  self_object st = Some (Some l) →
  ModelFormMixin.form_valid self (ModelFormMixin.get_form_class self)
    populate ModelFormMixin.save super form st
  = (populate form;; ModelFormMixin.save;; super form) st.
Proof.
  intros Hso. unfold ModelFormMixin.form_valid.
  rewrite (run_bind_ok _ _ _ _ _ (run_get_self_object st _ Hso)).
  reflexivity.
Qed.

Lemma run_form_valid_new (self : View) (populate : Form → M unit)
    (super : Form → M Response) (form : Form) (st : State) (m : Model) :
  self_object st = Some None →
  instantiates self st m →
  ModelFormMixin.form_valid self (ModelFormMixin.get_form_class self)
    populate ModelFormMixin.save super form st
  = (populate form;; ModelFormMixin.save;; super form)
      (with_new_instance st m).
Proof.
  intros Hso Hm. unfold ModelFormMixin.form_valid.
  rewrite (run_bind_ok _ _ _ _ _ (run_get_self_object st _ Hso)).
  rewrite run_bind.
  assert ((model ← match model self with
                   | Some m => ret (Some m)
                   | None =>
                       fc ← ModelFormMixin.get_form_class self;
                       lift (Meta_model fc)
                   end;
           match model with
           | Some m => l ← new_instance m; set_object (Some l)
           | None => raise (TypeError "'NoneType' object is not callable")
           end) st = (Ok tt, with_new_instance st m)) as ->; [|done].
  rewrite run_bind.
  destruct Hm as [-> | [-> (fc & Hfc & Hmeta)]].
  - reflexivity.
  - apply reads_only_run in Hfc;
      [|apply (reads_only_get_form_class a_CreateView)].
    rewrite (run_bind_ok _ _ _ _ _ Hfc). unfold lift. rewrite Hmeta.
    reflexivity.
Qed.

End form_valid.

Section answer.
Context `{!Collaborators}.

Lemma form_valid_super (self : View) (gfc : M (option FormClass))
    (populate : Form → M unit) (save : M (option loc))
    (super : Form → M Response) (r0 : Response) (form : Form) (st : State) :
  ModelFormMixin.form_valid self gfc populate save super form st
  = match ModelFormMixin.form_valid self gfc populate save
            (λ _, ret r0) form st with
    | (Ok _, st2) => super form st2
    | (Raise e, st2) => (Raise e, st2)
    end.
Proof.
  unfold ModelFormMixin.form_valid.
  repeat (rewrite !run_bind;
          match goal with
          | |- context [match ?m st with _ => _ end] =>
              destruct (m st) as [[?|?] ?]
          | |- context [match ?m ?s with _ => _ end] =>
              destruct (m s) as [[?|?] ?]
          end; try done).
Qed.

Lemma form_valid_answer (cls : form_view) (self : View) (request : Request)
    (form : Form) (st : State) :
  form_valid_of cls self request form st
  = match before_answer cls self request form st with
    | (Ok _, st2) =>
        FormMixin.form_valid self (get_success_url_of cls self) form st2
    | (Raise e, st2) => (Raise e, st2)
    end.
Proof.
  destruct cls; simpl; [done|..];
    unfold CreateView.form_valid, UpdateView.form_valid;
    apply form_valid_super.
Qed.

Lemma run_FormMixin_form_valid (self : View) (gsu : M string) (form : Form)
    (st : State) :
  reads_only gsu →
  FormMixin.form_valid self gsu form st
  = (match (gsu st).1 with
     | Ok url => Ok (HTTPFound url)
     | Raise (ImproperlyConfigured msg) =>
         if endpoint self then Ok (Response_ "")
         else Raise (ImproperlyConfigured msg)
     | Raise e => Raise e
     end, st).
Proof.
  intros Hgsu. unfold FormMixin.form_valid, try_except. rewrite run_bind.
  specialize (Hgsu st). destruct (gsu st) as [[url|e] st']; simpl in *; subst.
  - done.
  - destruct e; try done. by destruct (endpoint self).
Qed.

End answer.

Lemma run_ModelFormMixin_populate_obj (form : Form) (st : State) (l : loc)
    (o : PyObj) :
  self_object st = Some (Some l) →
  heap st !! l = Some o →
  ModelFormMixin.populate_obj form st
  = (Ok tt, with_heap_trace st
              (<[l := populated every (_fields form) o]> (heap st))
              (trace st ++ assignments every l (_fields form))).
Proof.
  intros Hso Hl. unfold ModelFormMixin.populate_obj.
  rewrite (run_bind_ok _ _ _ _ _ (run_get_self_object st _ Hso)).
  apply (run_Form_populate_obj form l st o Hl).
Qed.

Lemma run_BaseUpdateView_populate_obj (self : View) (request : Request)
    (form : Form) (st : State) (l : loc) (o : PyObj) :
  self_object st = Some (Some l) →
  heap st !! l = Some o →
  let p := selection self request in
  BaseUpdateView.populate_obj self request form st
  = (Ok tt, with_heap_trace st
              (<[l := after_hook (post_populate form)
                        (populated p (_fields form) o)]> (heap st))
              (trace st ++ assignments p l (_fields form)
                        ++ hook_events (post_populate form) l)).
Proof.
  intros Hso Hl p. subst p.
  unfold BaseUpdateView.populate_obj, selection. rewrite run_bind.
  destruct (partial_updates self); simpl.
  - rewrite (populate_loop (BaseUpdateView.populates self request) l
               (_fields form) st o Hso Hl).
    rewrite (run_post_populate form l _
               (populated (BaseUpdateView.populates self request)
                  (_fields form) o));
      [|done|apply lookup_insert_eq].
    unfold with_heap_trace; simpl.
    by rewrite insert_insert_eq, app_assoc.
  - rewrite (run_bind_ok _ _ _ _ _ (run_get_self_object st _ Hso)).
    rewrite (run_Form_populate_obj form l st o Hl).
    rewrite (run_post_populate form l _
               (populated every (_fields form) o));
      [|done|apply lookup_insert_eq].
    unfold with_heap_trace; simpl.
    by rewrite insert_insert_eq, app_assoc.
Qed.

Section persisted.
Context `{!Collaborators}.

Lemma before_answer_create (self : View) (request : Request) (form : Form)
    (st : State) (m : Model) :
  self_object st = Some None →
  instantiates self st m →
  let l := fresh_loc (heap st) in
  ∃ st2,
    before_answer a_CreateView self request form st
    = (Ok (Response_ ""), st2)
    ∧ saved (with_new_instance st m) st2 l
        (populated every (_fields form) {| __class__ := m; __dict__ := ∅ |})
        (assignments every l (_fields form)).
Proof.
  intros Hso Hm l. simpl.
  rewrite (run_form_valid_new self _ _ form st m Hso Hm).
  destruct (run_populate_save (CreateView.populate_obj form)
              (ret (Response_ "")) (with_new_instance st m) l
              (populated every (_fields form)
                 {| __class__ := m; __dict__ := ∅ |})
              (assignments every l (_fields form))) as (st2 & Hrun & Hsaved).
  { done. }
  { unfold CreateView.populate_obj.
    rewrite (run_ModelFormMixin_populate_obj form _ l
               {| __class__ := m; __dict__ := ∅ |});
      [|done|apply lookup_insert_eq].
    unfold with_heap_trace, with_new_instance; simpl.
    by rewrite insert_insert_eq. }
  exists st2. split; [|done]. unfold CreateView.save. by rewrite Hrun.
Qed.

Lemma before_answer_update (self : View) (request : Request) (form : Form)
    (st : State) (l : loc) (o : PyObj) :
  self_object st = Some (Some l) →
  heap st !! l = Some o →
  let p := selection self request in
  ∃ st2,
    before_answer a_UpdateView self request form st
    = (Ok (Response_ ""), st2)
    ∧ saved st st2 l
        (after_hook (post_populate form) (populated p (_fields form) o))
        (assignments p l (_fields form)
         ++ hook_events (post_populate form) l).
Proof.
  intros Hso Hl p. simpl.
  rewrite (run_form_valid_existing self _ _ form st l Hso).
  destruct (run_populate_save (UpdateView.populate_obj self request form)
              (ret (Response_ "")) st l
              (after_hook (post_populate form)
                 (populated p (_fields form) o))
              (assignments p l (_fields form)
               ++ hook_events (post_populate form) l))
    as (st2 & Hrun & Hsaved).
  { done. }
  { by apply run_BaseUpdateView_populate_obj. }
  exists st2. split; [|done]. unfold UpdateView.save. by rewrite Hrun.
Qed.

End persisted.

Section persistence.
Context `{!Collaborators}.

Lemma run_valid_post (cls : form_view) (self : View) (request : Request)
    (st st1 st2 : State) (fc : option FormClass) (form : Form)
    (r : Response) :
  entered cls self request st = Ok st1 →
  (get_form_class_of cls self st1).1 = Ok fc →
  (get_form_of cls self request fc st1).1 = Ok form →
  validate form = true →
  before_answer cls self request form st1 = (Ok r, st2) →
  post_of cls self request st
  = FormMixin.form_valid self (get_success_url_of cls self) form st2.
Proof.
  intros Hen Hfc Hform Hvalid Hbefore.
  destruct (run_post cls self request st st1 fc form Hen Hfc Hform)
    as [-> _].
  by rewrite Hvalid, form_valid_answer, Hbefore.
Qed.

Lemma run_interpolated_url (self : View) (st : State) (l : loc) (o : PyObj) :
  truthy (success_url self) = true →
  self_object st = Some (Some l) →
  heap st !! l = Some o →
  ModelFormMixin.get_success_url self st
  = (interpolate (default "" (success_url self)) (__dict__ o), st).
Proof.
  intros Hurl Hso Hl. unfold ModelFormMixin.get_success_url. rewrite Hurl.
  rewrite (run_bind_ok _ _ _ _ _ (run_get_self_object st _ Hso)).
  by rewrite (run_bind_ok _ _ _ _ _ (run_deref st l o Hl)).
Qed.

(** C7.  A valid submission is persisted before it is answered.  A
    create view, which has no target object, instantiates the resolved
    model; the object is populated, added to the session and flushed at
    once; the success URL is computed, and interpolated, in the state
    that this leaves, where the object is persistent and carries its
    primary key. *)
Theorem valid_form_is_persisted (self : View) (request : Request)
    (fc : option FormClass) (form : Form) (st : State) :
  validate form = true →
  NoDup (_fields form).*1 →
  (∀ m,
     let st1 := with_object st None in
     let l := fresh_loc (heap st) in
     (CreateView.get_form_class self st1).1 = Ok fc →
     (CreateView.get_form self request fc st1).1 = Ok form →
     instantiates self st1 m →
     ∃ st2 o2,
       heap st !! l = None
       ∧ CreateView.post self request st
         = FormMixin.form_valid self (CreateView.get_success_url self)
             form st2
       ∧ self_object st2 = Some (Some l)
       ∧ heap st2 !! l = Some o2
       ∧ __class__ o2 = m
       ∧ (∀ name field, (name, field) ∈ _fields form → name ≠ "id" →
            __dict__ o2 !! name = Some (data field))
       ∧ SessionOps.has_pk o2 = true
       ∧ l ∈ sess_identity (db_session st2)
       ∧ trace st2
         = trace st ++ [EvNew l]
           ++ ((λ nf, EvSetattr l nf.1 (data nf.2)) <$> _fields form)
           ++ [EvAdd l; EvFlush]
       ∧ (∀ url, truthy (success_url self) = true →
            interpolate (default "" (success_url self)) (__dict__ o2)
            = Ok url →
            CreateView.post self request st = (Ok (HTTPFound url), st2)))
  ∧ (∀ l o,
       let st1 := with_object st (Some l) in
       get_object self request st = Ok l →
       heap st !! l = Some o →
       (UpdateView.get_form_class self st1).1 = Ok fc →
       (UpdateView.get_form self request fc st1).1 = Ok form →
       ∃ st2 o2 evs,
         UpdateView.post self request st
         = FormMixin.form_valid self (UpdateView.get_success_url self)
             form st2
         ∧ self_object st2 = Some (Some l)
         ∧ heap st2 !! l = Some o2
         ∧ __class__ o2 = __class__ o
         ∧ SessionOps.has_pk o2 = true
         ∧ l ∈ sess_identity (db_session st2)
         ∧ trace st2 = trace st ++ evs ++ [EvAdd l; EvFlush]
         ∧ (∀ e, e ∈ evs →
              (∃ name v, e = EvSetattr l name v) ∨ e = EvPostPopulate l)
         ∧ (∀ url, truthy (success_url self) = true →
              interpolate (default "" (success_url self)) (__dict__ o2)
              = Ok url →
              UpdateView.post self request st = (Ok (HTTPFound url), st2))).
Proof.
  intros Hvalid Hnd. split.
  - intros m st1 l Hfc Hform Hm.
    destruct (before_answer_create self request form st1 m eq_refl Hm)
      as (st2 & Hbefore & Hso2 & (o2 & Ho2 & Hkeyed & Hpk) & Htr & Hid & _).
    pose proof (run_valid_post a_CreateView self request st st1 st2 fc form
                  _ eq_refl Hfc Hform Hvalid Hbefore) as Hpost.
    simpl in Hpost. destruct Hkeyed as (Hclass & Hdict & _).
    exists st2, o2. split_and!; try done.
    + apply fresh_loc_fresh.
    + by rewrite Hclass, populated_class.
    + intros name field Hin Hne. rewrite (Hdict name Hne).
      by rewrite (populated_lookup_in every _ name field _ Hnd Hin).
    + rewrite Htr. simpl. by rewrite assignments_every, <- app_assoc.
    + intros url Hurl Hinterp. rewrite Hpost.
      rewrite run_FormMixin_form_valid
        by apply (reads_only_get_success_url a_CreateView).
      unfold CreateView.get_success_url.
      by rewrite (run_interpolated_url self st2 _ o2 Hurl Hso2 Ho2), Hinterp.
  - intros l o st1 Hobj Hl Hfc Hform.
    destruct (before_answer_update self request form st1 l o eq_refl Hl)
      as (st2 & Hbefore & Hso2 & (o2 & Ho2 & Hkeyed & Hpk) & Htr & Hid & _).
    assert (entered a_UpdateView self request st = Ok st1) as Hen.
    { simpl. by rewrite Hobj. }
    pose proof (run_valid_post a_UpdateView self request st st1 st2 fc form
                  _ Hen Hfc Hform Hvalid Hbefore) as Hpost.
    simpl in Hpost. destruct Hkeyed as (Hclass & _ & _).
    eexists st2, o2, _. split_and!; try done.
    + rewrite Hclass. destruct (post_populate form); simpl;
        apply populated_class.
    + intros e [Hin|Hin]%elem_of_app.
      * left. unfold assignments in Hin.
        apply list_elem_of_fmap in Hin as ([n f] & -> & _). by eexists _, _.
      * right. destruct (post_populate form); simpl in Hin.
        -- by apply list_elem_of_singleton in Hin.
        -- by apply elem_of_nil in Hin.
    + intros url Hurl Hinterp. rewrite Hpost.
      rewrite run_FormMixin_form_valid
        by apply (reads_only_get_success_url a_UpdateView).
      unfold UpdateView.get_success_url.
      by rewrite (run_interpolated_url self st2 _ o2 Hurl Hso2 Ho2), Hinterp.
Qed.

End persistence.

Lemma valid_form_is_persisted_witness :
  (∃ st2 o2,
     CreateView.post items_view (post_request "x") (start ∅)
     = FormMixin.form_valid items_view
         (CreateView.get_success_url items_view) (posted "x" None ∅) st2
     ∧ heap st2 !! 0%nat = Some o2
     ∧ __class__ o2 = Author
     ∧ __dict__ o2 !! "name" = Some (VStr "x")
     ∧ SessionOps.has_pk o2 = true
     ∧ 0%nat ∈ sess_identity (db_session st2))
  ∧ (∃ st2 o2,
       UpdateView.post items_view (post_request "x")
         (start {[ 0%nat := book ]})
       = FormMixin.form_valid items_view
           (UpdateView.get_success_url items_view)
           (posted "x" (Some 0%nat) {[ 0%nat := book ]}) st2
       ∧ heap st2 !! 0%nat = Some o2
       ∧ SessionOps.has_pk o2 = true
       ∧ 0%nat ∈ sess_identity (db_session st2)).
Proof.
  split.
  - destruct (proj1 (valid_form_is_persisted items_view (post_request "x")
                       (Some (ModelFormWithModel Author None))
                       (posted "x" None ∅) (start ∅) eq_refl
                       ltac:(compute_done)) Author)
      as (st2 & o2 & _ & Hpost & _ & Ho2 & Hcl & Hf & Hpk & Hid & _).
    + reflexivity.
    + reflexivity.
    + right. split; [reflexivity|]. eexists. split; reflexivity.
    + exists st2, o2. split_and!; try done.
      apply (Hf "name" {| is_FileField := false; data := VStr "x" |});
        [compute_done|done].
  - destruct (proj2 (valid_form_is_persisted items_view (post_request "x")
                       (Some (ModelFormWithModel Book None))
                       (posted "x" (Some 0%nat) {[ 0%nat := book ]})
                       (start {[ 0%nat := book ]}) eq_refl
                       ltac:(compute_done)) 0%nat book)
      as (st2 & o2 & evs & Hpost & _ & Ho2 & _ & Hpk & Hid & _).
    + reflexivity.
    + reflexivity.
    + reflexivity.
    + reflexivity.
    + exists st2, o2. by split_and!.
Defined.

(** The scenario of the spec: the object gets the key 7 when it is
    flushed, and the redirect goes to [/items/7]. *)
Example create_redirects_to_the_new_item :
  (CreateView.post items_view (post_request "x") (start ∅)).1
  = Ok (HTTPFound "/items/7").
Proof. vm_compute. reflexivity. Qed.

(** ** Deleting *)

Section deletion.
Context `{!Collaborators}.

Lemma reads_only_DeletionMixin_get_success_url (self : View) :
  reads_only (DeletionMixin.get_success_url self).
Proof. unfold DeletionMixin.get_success_url. reads_only. Qed.

Lemma run_delete (self : View) (request : Request) (st : State) (l : loc) :
  get_object self request st = Ok l →
  DeleteView.delete self request st
  = (answer self (DeleteView.get_success_url self (with_deleted st l)).1,
     with_deleted st l)
  ∧ DeleteView.post self request st = DeleteView.delete self request st.
Proof.
  intros Hobj. split; [|done].
  unfold DeleteView.delete, DeletionMixin.delete.
  rewrite run_bind. unfold reads. rewrite Hobj.
  rewrite run_bind. unfold set_object, modify.
  rewrite run_bind. unfold DeletionMixin.do_delete.
  erewrite run_bind_ok; [|by apply run_get_self_object].
  unfold SessionOps.delete. rewrite !run_bind. simpl.
  change {| heap := heap st;
            db_session :=
              {| sess_new := sess_new (db_session st);
                 sess_identity := sess_identity (db_session st);
                 sess_deleted := sess_deleted (db_session st) ∪ {[l]};
                 next_pk := next_pk (db_session st) |};
            self_object := Some (Some l);
            trace := trace st ++ [EvDelete l] |}
    with (with_deleted st l).
  unfold try_except, DeleteView.get_success_url. rewrite run_bind.
  pose proof (reads_only_DeletionMixin_get_success_url self
                (with_deleted st l)) as Hro.
  destruct (DeletionMixin.get_success_url self (with_deleted st l))
    as [[url|e] st']; simpl in *; subst st'; [done|].
  destruct e; try done. by destruct (endpoint self).
Qed.

End deletion.

(** ** Without a destination *)

Section no_destination.
Context `{!Collaborators}.

(** C2.  When the success URL cannot be had (asking for it raises
    [ImproperlyConfigured]), a valid submission, once populated and
    saved, and a deletion are answered by the [endpoint] flag alone: an
    empty 200 response when it is set, the configuration error raised
    when it is not. *)
Theorem no_destination_outcome (self : View) (request : Request)
    (st : State) (msg : string) :
  let outcome : result Response :=
    if endpoint self then Ok (Response_ "")
    else Raise (ImproperlyConfigured msg) in
  (∀ cls st1 st2 fc form r,
     entered cls self request st = Ok st1 →
     (get_form_class_of cls self st1).1 = Ok fc →
     (get_form_of cls self request fc st1).1 = Ok form →
     validate form = true →
     before_answer cls self request form st1 = (Ok r, st2) →
     (get_success_url_of cls self st2).1 = Raise (ImproperlyConfigured msg) →
     post_of cls self request st = (outcome, st2)
     ∧ put_of cls self request st = (outcome, st2))
  ∧ (∀ l,
       get_object self request st = Ok l →
       (DeleteView.get_success_url self (with_deleted st l)).1
       = Raise (ImproperlyConfigured msg) →
       DeleteView.delete self request st = (outcome, with_deleted st l)
       ∧ DeleteView.post self request st = (outcome, with_deleted st l))
  ∧ status_code (Response_ "") = 200%Z.
Proof.
  intros outcome. split_and!; [| |done].
  - intros cls st1 st2 fc form r Hen Hfc Hform Hvalid Hbefore Hurl.
    destruct (run_post cls self request st st1 fc form Hen Hfc Hform)
      as [Hpost ->].
    rewrite (run_valid_post cls self request st st1 st2 fc form r)
      by done.
    rewrite run_FormMixin_form_valid by apply reads_only_get_success_url.
    by rewrite Hurl.
  - intros l Hobj Hurl.
    destruct (run_delete self request st l Hobj) as [Hdel ->].
    by rewrite Hdel, Hurl.
Qed.

(** C10.  The session is changed before the success URL is asked for,
    and an error raised then leaves the change in place: a deletion has
    marked the object deleted, a valid create or update has added and
    flushed it, when [ImproperlyConfigured] leaves the view. *)
Theorem mutation_precedes_success_url (self : View) (request : Request)
    (fc : option FormClass) (form : Form) (st : State) :
  (∀ l,
     get_object self request st = Ok l →
     ∃ st2,
       DeleteView.delete self request st
       = (answer self (DeleteView.get_success_url self st2).1, st2)
       ∧ trace st2 = trace st ++ [EvDelete l]
       ∧ l ∈ sess_deleted (db_session st2)
       ∧ (endpoint self = false → truthy (success_url self) = false →
          ∃ msg, DeleteView.delete self request st
                 = (Raise (ImproperlyConfigured msg), st2)))
  ∧ (validate form = true →
     (∀ m,
        let st1 := with_object st None in
        (CreateView.get_form_class self st1).1 = Ok fc →
        (CreateView.get_form self request fc st1).1 = Ok form →
        instantiates self st1 m →
        let l := fresh_loc (heap st) in
        ∃ st2 evs,
          CreateView.post self request st
          = (answer self (CreateView.get_success_url self st2).1, st2)
          ∧ trace st2 = trace st ++ evs ++ [EvAdd l; EvFlush]
          ∧ l ∈ sess_identity (db_session st2)
          ∧ (∀ msg, endpoint self = false →
               (CreateView.get_success_url self st2).1
               = Raise (ImproperlyConfigured msg) →
               CreateView.post self request st
               = (Raise (ImproperlyConfigured msg), st2)))
     ∧ (∀ l o,
          let st1 := with_object st (Some l) in
          get_object self request st = Ok l →
          heap st !! l = Some o →
          (UpdateView.get_form_class self st1).1 = Ok fc →
          (UpdateView.get_form self request fc st1).1 = Ok form →
          ∃ st2 evs,
            UpdateView.post self request st
            = (answer self (UpdateView.get_success_url self st2).1, st2)
            ∧ trace st2 = trace st ++ evs ++ [EvAdd l; EvFlush]
            ∧ l ∈ sess_identity (db_session st2)
            ∧ (∀ msg, endpoint self = false →
                 (UpdateView.get_success_url self st2).1
                 = Raise (ImproperlyConfigured msg) →
                 UpdateView.post self request st
                 = (Raise (ImproperlyConfigured msg), st2)))).
Proof.
  split.
  - intros l Hobj. destruct (run_delete self request st l Hobj) as [Hdel _].
    exists (with_deleted st l). split_and!.
    + done.
    + done.
    + simpl. apply elem_of_union. right. by apply elem_of_singleton.
    + intros Hend Hurl. rewrite Hdel.
      unfold DeleteView.get_success_url, DeletionMixin.get_success_url.
      rewrite Hurl. unfold raise, answer. simpl. rewrite Hend. by eexists.
  - intros Hvalid. split.
    + intros m st1 Hfc Hform Hm l.
      destruct (before_answer_create self request form st1 m eq_refl Hm)
        as (st2 & Hbefore & _ & _ & Htr & Hid & _).
      pose proof (run_valid_post a_CreateView self request st st1 st2 fc
                    form _ eq_refl Hfc Hform Hvalid Hbefore) as Hpost.
      simpl in Hpost.
      rewrite run_FormMixin_form_valid in Hpost
        by apply (reads_only_get_success_url a_CreateView).
      eexists st2, (EvNew _ :: _). split_and!; [done| |done|].
      * rewrite Htr. simpl. by rewrite <- app_assoc.
      * intros msg Hend Hurl. rewrite Hpost, Hurl. unfold answer.
        by rewrite Hend.
    + intros l o st1 Hobj Hl Hfc Hform.
      destruct (before_answer_update self request form st1 l o eq_refl Hl)
        as (st2 & Hbefore & _ & _ & Htr & Hid & _).
      assert (entered a_UpdateView self request st = Ok st1) as Hen.
      { simpl. by rewrite Hobj. }
      pose proof (run_valid_post a_UpdateView self request st st1 st2 fc
                    form _ Hen Hfc Hform Hvalid Hbefore) as Hpost.
      simpl in Hpost.
      rewrite run_FormMixin_form_valid in Hpost
        by apply (reads_only_get_success_url a_UpdateView).
      eexists st2, _. split_and!; [done|exact Htr|done|].
      intros msg Hend Hurl. rewrite Hpost, Hurl. unfold answer.
      by rewrite Hend.
Qed.

(** C5, as the code has it.  After a deletion a configured success URL
    is interpolated against the object's [__dict__], as it is after a
    create or an update; without one the deletion raises
    [ImproperlyConfigured] at once, whatever the object is, and does not
    ask the object for its URL, which a create or an update does. *)
Theorem deletion_success_url (self : View) (st : State) :
  (truthy (success_url self) = true →
     DeleteView.get_success_url self st
     = ModelFormMixin.get_success_url self st
     ∧ ∀ l o, self_object st = Some (Some l) → heap st !! l = Some o →
         DeleteView.get_success_url self st
         = (interpolate (default "" (success_url self)) (__dict__ o), st))
  ∧ (truthy (success_url self) = false →
       DeleteView.get_success_url self st
       = (Raise (ImproperlyConfigured
                   "No URL to redirect to. Provide a success_url."), st)
       ∧ ∀ l o url_of,
           self_object st = Some (Some l) → heap st !! l = Some o →
           get_absolute_url (__class__ o) = Some url_of →
           (∀ name, url_of (__dict__ o) ≠ Raise (AttributeError name)) →
           ModelFormMixin.get_success_url self st
           = (url_of (__dict__ o), st)).
Proof.
  unfold DeleteView.get_success_url, DeletionMixin.get_success_url,
    ModelFormMixin.get_success_url.
  split; intros ->.
  - split; [done|]. intros l o Hso Hl.
    rewrite (run_bind_ok _ _ _ _ _ (run_get_self_object st _ Hso)).
    by rewrite (run_bind_ok _ _ _ _ _ (run_deref st l o Hl)).
  - split; [done|]. intros l o url_of Hso Hl Hurl Hne.
    unfold try_except.
    rewrite (run_bind_ok _ _ _ _ _ (run_get_self_object st _ Hso)).
    rewrite (run_bind_ok _ _ _ _ _ (run_deref st l o Hl)).
    rewrite Hurl. unfold lift.
    destruct (url_of (__dict__ o)) as [url|e] eqn:He; [done|].
    destruct e; try done. by destruct (Hne name).
Qed.

End no_destination.

(** ** On the bench *)

Lemma no_destination_outcome_witness :
  (∃ st2, CreateView.post view (post_request "x") (start ∅)
          = (Raise (ImproperlyConfigured
               "No URL to redirect to.  Either provide a url or define a get_absolute_url method on the Model."),
             st2))
  ∧ (∃ st2, UpdateView.put endpoint_view (post_request "x")
              (start {[ 0%nat := book ]})
            = (Ok (Response_ ""), st2))
  ∧ DeleteView.delete endpoint_view get_request (start {[ 0%nat := canvas ]})
    = (Ok (Response_ ""), with_deleted (start {[ 0%nat := canvas ]}) 0%nat)
  ∧ DeleteView.post view get_request (start {[ 0%nat := canvas ]})
    = (Raise (ImproperlyConfigured
                "No URL to redirect to. Provide a success_url."),
       with_deleted (start {[ 0%nat := canvas ]}) 0%nat).
Proof.
  split_and!.
  - edestruct (proj1 (no_destination_outcome view (post_request "x")
                        (start ∅)
                        "No URL to redirect to.  Either provide a url or define a get_absolute_url method on the Model.")
                 a_CreateView) as [Hpost _];
      [reflexivity..|].
    eexists. exact Hpost.
  - edestruct (proj1 (no_destination_outcome endpoint_view (post_request "x")
                        (start {[ 0%nat := book ]})
                        "No URL to redirect to.  Either provide a url or define a get_absolute_url method on the Model.")
                 a_UpdateView)
      as [_ Hput]; [reflexivity..|].
    eexists. exact Hput.
  - edestruct (proj1 (proj2 (no_destination_outcome endpoint_view get_request
                               (start {[ 0%nat := canvas ]})
                               "No URL to redirect to. Provide a success_url."))
                 0%nat)
      as [Hdel _]; [reflexivity..|exact Hdel].
  - edestruct (proj1 (proj2 (no_destination_outcome view get_request
                               (start {[ 0%nat := canvas ]})
                               "No URL to redirect to. Provide a success_url."))
                 0%nat)
      as [_ Hpost]; [reflexivity..|exact Hpost].
Defined.

Lemma mutation_precedes_success_url_witness :
  (∃ st2 msg,
     DeleteView.delete view get_request (start {[ 0%nat := canvas ]})
     = (Raise (ImproperlyConfigured msg), st2)
     ∧ trace st2 = [EvDelete 0%nat]
     ∧ 0%nat ∈ sess_deleted (db_session st2))
  ∧ (∃ st2 evs,
       CreateView.post view (post_request "x") (start ∅)
       = (answer view (CreateView.get_success_url view st2).1, st2)
       ∧ trace st2 = evs ++ [EvAdd 0%nat; EvFlush]
       ∧ 0%nat ∈ sess_identity (db_session st2))
  ∧ (∃ st2 evs,
       UpdateView.post view (post_request "x") (start {[ 0%nat := book ]})
       = (answer view (UpdateView.get_success_url view st2).1, st2)
       ∧ trace st2 = evs ++ [EvAdd 0%nat; EvFlush]
       ∧ 0%nat ∈ sess_identity (db_session st2)).
Proof.
  split_and!.
  - destruct (proj1 (mutation_precedes_success_url view get_request None
                       (posted "x" None ∅) (start {[ 0%nat := canvas ]}))
                0%nat) as (st2 & _ & Htr & Hin & Hraise); [reflexivity|].
    destruct (Hraise eq_refl eq_refl) as [msg Hdel].
    by exists st2, msg.
  - destruct (proj1 (proj2 (mutation_precedes_success_url view
                              (post_request "x")
                              (Some (ModelFormWithModel Author None))
                              (posted "x" None ∅) (start ∅)) eq_refl) Author)
      as (st2 & evs & Hpost & Htr & Hin & _).
    + reflexivity.
    + reflexivity.
    + right. split; [reflexivity|]. eexists. split; reflexivity.
    + by exists st2, evs.
  - destruct (proj2 (proj2 (mutation_precedes_success_url view
                              (post_request "x")
                              (Some (ModelFormWithModel Book None))
                              (posted "x" (Some 0%nat) {[ 0%nat := book ]})
                              (start {[ 0%nat := book ]})) eq_refl)
                0%nat book)
      as (st2 & evs & Hpost & Htr & Hin & _).
    + reflexivity.
    + reflexivity.
    + reflexivity.
    + reflexivity.
    + by exists st2, evs.
Defined.

Lemma deletion_success_url_witness :
  DeleteView.get_success_url items_view (editing canvas)
  = (Ok "/items/3", editing canvas)
  ∧ DeleteView.get_success_url view (editing canvas)
    = (Raise (ImproperlyConfigured
                "No URL to redirect to. Provide a success_url."),
       editing canvas)
  ∧ ModelFormMixin.get_success_url view (editing canvas)
    = (Ok "/paintings/3/", editing canvas).
Proof.
  destruct (deletion_success_url items_view (editing canvas))
    as [Hset _].
  destruct (deletion_success_url view (editing canvas)) as [_ Hunset].
  destruct Hset as [_ Hset]; [reflexivity|].
  destruct Hunset as [Hdel Hform]; [reflexivity|].
  split_and!.
  - rewrite (Hset 0%nat canvas) by reflexivity. reflexivity.
  - exact Hdel.
  - rewrite (Hform 0%nat canvas
               (λ d, match d !! "id" with
                     | Some v => Ok ("/paintings/" +:+ str v +:+ "/")
                     | None => Raise (AttributeError "id")
                     end)); [reflexivity..|].
    intros name. discriminate.
Defined.

(** C5, as the spec has it, fails: for an object that has a
    [get_absolute_url] and a view without a success URL, a create or an
    update finds the destination and a deletion does not. *)
Lemma deletion_does_not_ask_the_object :
  (UpdateView.get_success_url view (editing canvas)).1 = Ok "/paintings/3/"
  ∧ (CreateView.get_success_url view (editing canvas)).1
    = Ok "/paintings/3/"
  ∧ (DeleteView.get_success_url view (editing canvas)).1
    = Raise (ImproperlyConfigured
               "No URL to redirect to. Provide a success_url.")
  ∧ (DeleteView.get_success_url view (editing canvas)).1
    ≠ (UpdateView.get_success_url view (editing canvas)).1.
Proof. split_and!; [reflexivity..|discriminate]. Qed.

(** C6 at a failing input.  [SluggedForm] has a [post_populate] hook.
    An update calls it, once, after the fields are copied, and the
    object gets its [slug]; a create with the same form and the same
    submission never calls it, and the object is saved without. *)
Theorem create_skips_post_populate :
  (∃ form,
     (CreateView.get_form slugged_view (post_request "x") (Some SluggedForm)
        (with_object (start ∅) None)).1 = Ok form
     ∧ validate form = true
     ∧ post_populate form = Some slugify)
  ∧ (∃ st2 o2,
       CreateView.post slugged_view (post_request "x") (start ∅)
       = (Ok (Response_ ""), st2)
       ∧ trace st2
         = [EvNew 0%nat; EvSetattr 0%nat "name" (VStr "x");
            EvAdd 0%nat; EvFlush]
       ∧ heap st2 !! 0%nat = Some o2
       ∧ __dict__ o2 !! "name" = Some (VStr "x")
       ∧ __dict__ o2 !! "slug" = None)
  ∧ (∃ st2 o2,
       UpdateView.post slugged_view (post_request "x")
         (start {[ 0%nat := {| __class__ := Author; __dict__ := ∅ |} ]})
       = (Ok (Response_ ""), st2)
       ∧ trace st2
         = [EvSetattr 0%nat "name" (VStr "x"); EvPostPopulate 0%nat;
            EvAdd 0%nat; EvFlush]
       ∧ heap st2 !! 0%nat = Some o2
       ∧ __dict__ o2 !! "name" = Some (VStr "x")
       ∧ __dict__ o2 !! "slug" = Some (VStr "x")).
Proof.
  split_and!.
  - eexists. split_and!; reflexivity.
  - eexists _, _. split_and!; [vm_compute; reflexivity|..];
      vm_compute; reflexivity.
  - eexists _, _. split_and!; [vm_compute; reflexivity|..];
      vm_compute; reflexivity.
Qed.

(** * Further properties *)

(** ** What a handler leaves alone *)

Lemma same_store_refl (st : State) : same_store st st.
Proof. by split_and!. Qed.

Lemma same_store_with_object (st : State) (v : option loc) :
  same_store st (with_object st v).
Proof. by split_and!. Qed.

Lemma reads_only_same_store {A} (m : M A) (st st1 : State) :
  reads_only m → same_store st st1 → same_store st (m st1).2.
Proof. intros Hm Hst. by rewrite Hm. Qed.

Section handlers_frame.
Context `{!Collaborators}.

Lemma run_post_entered (cls : form_view) (self : View) (request : Request)
    (st : State) :
  post_of cls self request st
  = match entered cls self request st with
    | Ok st1 =>
        ProcessFormView.post (get_form_class_of cls self)
          (get_form_of cls self request) (form_valid_of cls self request)
          (FormMixin.form_invalid self) st1
    | Raise e => (Raise e, st)
    end.
Proof.
  destruct cls; simpl; [done|done|].
  unfold UpdateView.post, BaseUpdateView.post. rewrite run_bind.
  unfold reads. by destruct (get_object self request st).
Qed.

Lemma run_get_entered (cls : form_view) (self : View) (request : Request)
    (st : State) :
  get_of cls self request st
  = match entered cls self request st with
    | Ok st1 =>
        FormMixin.get self
          (ProcessFormView.get (get_form_class_of cls self)
             (get_form_of cls self request)) st1
    | Raise e => (Raise e, st)
    end.
Proof.
  destruct cls; simpl; [done|done|].
  unfold UpdateView.get, BaseUpdateView.get. rewrite run_bind.
  unfold reads. by destruct (get_object self request st).
Qed.

Lemma entered_same_store (cls : form_view) (self : View) (request : Request)
    (st st1 : State) :
  entered cls self request st = Ok st1 → same_store st st1.
Proof.
  destruct cls; simpl.
  - intros [= <-]. apply same_store_refl.
  - intros [= <-]. apply same_store_with_object.
  - destruct (get_object self request st); [|done].
    intros [= <-]. apply same_store_with_object.
Qed.

Lemma reads_only_get_handler (cls : form_view) (self : View)
    (request : Request) :
  reads_only (FormMixin.get self
                (ProcessFormView.get (get_form_class_of cls self)
                   (get_form_of cls self request))).
Proof.
  pose proof (reads_only_get_form_class cls self) as Hfc.
  pose proof (reads_only_get_form cls self request) as Hf.
  unfold FormMixin.get, ProcessFormView.get. reads_only.
Qed.

(** X1.  A GET changes nothing but [self.object]: whatever it answers or
    raises, on any of the three form views, the objects, the session
    and the calls made are as before. *)
Theorem get_changes_nothing (cls : form_view) (self : View)
    (request : Request) (st : State) :
  same_store st (get_of cls self request st).2.
Proof.
  rewrite run_get_entered.
  destruct (entered cls self request st) as [st1|e] eqn:Hen;
    [|apply same_store_refl].
  apply reads_only_same_store; [apply reads_only_get_handler|].
  by eapply entered_same_store.
Qed.

(** X2.  When the object cannot be resolved, the error of [get_object]
    leaves the update view (GET, POST, PUT) and the delete view (DELETE,
    POST) as it is, and the state is untouched: [self.object] is not
    set, nothing is populated, saved or deleted. *)
Theorem unresolved_object_changes_nothing (self : View) (request : Request)
    (st : State) (e : exn) :
  get_object self request st = Raise e →
  UpdateView.get self request st = (Raise e, st)
  ∧ UpdateView.post self request st = (Raise e, st)
  ∧ UpdateView.put self request st = (Raise e, st)
  ∧ DeleteView.delete self request st = (Raise e, st)
  ∧ DeleteView.post self request st = (Raise e, st).
Proof.
  intros Hobj.
  assert (∀ k : loc → M Response,
            (reads (get_object self request) ≫= k) st = (Raise e, st))
    as Hrun.
  { intros k. rewrite run_bind. unfold reads. by rewrite Hobj. }
  split_and!; apply Hrun.
Qed.

End handlers_frame.

Lemma unresolved_object_changes_nothing_witness :
  UpdateView.post view (post_request "x") (start ∅)
  = (Raise HTTPNotFound, start ∅)
  ∧ DeleteView.delete view get_request (start ∅)
    = (Raise HTTPNotFound, start ∅).
Proof.
  destruct (unresolved_object_changes_nothing view (post_request "x")
              (start ∅) HTTPNotFound) as (_ & Hpost & _); [reflexivity|].
  destruct (unresolved_object_changes_nothing view get_request
              (start ∅) HTTPNotFound) as (_ & _ & _ & Hdel & _);
    [reflexivity|].
  by split.
Defined.

Section submissions.
Context `{!Collaborators}.

(** The ways a POST can go, read off [ProcessFormView.post]. *)
Lemma post_cases (cls : form_view) (self : View) (request : Request)
    (st : State) :
  (∃ e, post_of cls self request st = (Raise e, st))
  ∨ (∃ st1, entered cls self request st = Ok st1
       ∧ ((∃ e, post_of cls self request st = (Raise e, st1))
          ∨ (∃ fc form,
               (get_form_class_of cls self st1).1 = Ok fc
               ∧ (get_form_of cls self request fc st1).1 = Ok form
               ∧ post_of cls self request st
                 = (if validate form
                    then form_valid_of cls self request form st1
                    else FormMixin.form_invalid self form st1)))).
Proof.
  rewrite run_post_entered.
  destruct (entered cls self request st) as [st1|e] eqn:Hen;
    [right; exists st1; split; [done|]|left; by eexists].
  unfold ProcessFormView.post. rewrite run_bind.
  pose proof (reads_only_get_form_class cls self st1) as Hfc.
  destruct (get_form_class_of cls self st1) as [[fc|e] st1'] eqn:Hfc';
    simpl in Hfc; subst st1'; [|left; by eexists].
  rewrite run_bind.
  pose proof (reads_only_get_form cls self request fc st1) as Hf.
  destruct (get_form_of cls self request fc st1) as [[form|e] st1'] eqn:Hf';
    simpl in Hf; subst st1'; [|left; by eexists].
  right. exists fc, form. split_and!; [done|by rewrite Hf'|].
  by destruct (validate form).
Qed.

(** X3.  A POST changes the objects and the session only for a form that
    validates: on every other way out (the object is not found, the form
    class or the form cannot be built, the form is invalid) they are as
    before, and nothing has been called on the session. *)
Theorem post_changes_only_if_valid (cls : form_view) (self : View)
    (request : Request) (st : State) :
  same_store st (post_of cls self request st).2
  ∨ ∃ st1 fc form,
      entered cls self request st = Ok st1
      ∧ (get_form_class_of cls self st1).1 = Ok fc
      ∧ (get_form_of cls self request fc st1).1 = Ok form
      ∧ validate form = true.
Proof.
  destruct (post_cases cls self request st)
    as [[e ->]|(st1 & Hen & [[e ->]|(fc & form & Hfc & Hf & Hpost)])].
  - left. apply same_store_refl.
  - left. by eapply entered_same_store.
  - destruct (validate form) eqn:Hvalid.
    + right. by exists st1, fc, form.
    + left. rewrite Hpost. unfold FormMixin.form_invalid, lift.
      destruct (negb (endpoint self)); by eapply entered_same_store.
Qed.

(** X4.  What a POST answers, when it answers: a redirect; or, on an
    endpoint, the empty response or a 400 with the errors of a form; or,
    on a view that is no endpoint, the rendered form.  An endpoint never
    renders, and a view that is none never answers empty or 400. *)
Theorem post_answers (cls : form_view) (self : View) (request : Request)
    (st st' : State) (r : Response) :
  post_of cls self request st = (Ok r, st') →
  (∃ url, r = HTTPFound url)
  ∨ (endpoint self = true
     ∧ (r = Response_ ""
        ∨ ∃ form, validate form = false
                  ∧ r = HTTPBadRequest (Some (json_errors (errors form)))))
  ∨ (endpoint self = false
     ∧ ∃ form, validate form = false ∧ r = Rendered {| ctx_form := form |}).
Proof.
  intros Hpost.
  destruct (post_cases cls self request st)
    as [[e He]|(st1 & Hen & [[e He]|(fc & form & Hfc & Hf & Hrun)])];
    [congruence..|].
  rewrite Hrun in Hpost. clear Hrun.
  destruct (validate form) eqn:Hvalid.
  - rewrite form_valid_answer in Hpost.
    destruct (before_answer cls self request form st1) as [[r0|e] st2];
      [|done].
    rewrite run_FormMixin_form_valid in Hpost
      by apply reads_only_get_success_url.
    injection Hpost as Hr _.
    destruct ((get_success_url_of cls self st2).1) as [url|e];
      [left; exists url; congruence|].
    destruct e; try done.
    destruct (endpoint self) eqn:Hend; [|done].
    right. left. split; [done|]. left. congruence.
  - unfold FormMixin.form_invalid, lift, set_body in Hpost.
    destruct (endpoint self) eqn:Hend; simpl in Hpost.
    + destruct python; [|done]. injection Hpost as <- _.
      right. left. split; [done|]. right. by exists form.
    + injection Hpost as <- _.
      right. right. split; [done|]. by exists form.
Qed.

(** X5.  A [FormView] persists nothing: its GET, POST and PUT leave the
    state as it is.  A valid POST redirects to [success_url] as it is
    written, with no interpolation, when there is one (the empty string
    counts as none). *)
Theorem form_view_only_answers (self : View) (request : Request) :
  reads_only (FormView.get self request)
  ∧ reads_only (FormView.post self request)
  ∧ reads_only (FormView.put self request)
  ∧ (∀ st fc form url,
       (FormView.get_form_class self st).1 = Ok fc →
       (FormView.get_form self request fc st).1 = Ok form →
       validate form = true →
       success_url self = Some url →
       url ≠ "" →
       FormView.post self request st = (Ok (HTTPFound url), st))
  ∧ (∀ st fc form,
       (FormView.get_form_class self st).1 = Ok fc →
       (FormView.get_form self request fc st).1 = Ok form →
       validate form = true →
       success_url self = None ∨ success_url self = Some "" →
       FormView.post self request st
       = (if endpoint self then Ok (Response_ "")
          else Raise (ImproperlyConfigured
                        "No URL to redirect to. Provide a success_url."),
          st)).
Proof.
  pose proof (reads_only_get_form_class a_FormView self) as Hfc.
  pose proof (reads_only_get_form a_FormView self request) as Hf.
  assert (reads_only (FormView.post self request)) as Hpost.
  { unfold FormView.post, ProcessFormView.post, FormView.form_valid,
      FormView.form_invalid, FormMixin.form_valid, FormMixin.form_invalid,
      FormView.get_success_url, FormMixin.get_success_url.
    simpl in *. reads_only. }
  split_and!.
  - apply (reads_only_get_handler a_FormView).
  - done.
  - done.
  - intros st fc form url Hfc' Hf' Hvalid Hurl Hne.
    destruct (run_post a_FormView self request st st fc form eq_refl
                Hfc' Hf') as [Hrun _].
    simpl in Hrun. rewrite Hrun, Hvalid.
    unfold FormView.form_valid.
    rewrite run_FormMixin_form_valid
      by apply (reads_only_get_success_url a_FormView).
    unfold FormView.get_success_url, FormMixin.get_success_url.
    rewrite Hurl. simpl. by rewrite bool_decide_true.
  - intros st fc form Hfc' Hf' Hvalid Hurl.
    destruct (run_post a_FormView self request st st fc form eq_refl
                Hfc' Hf') as [Hrun _].
    simpl in Hrun. rewrite Hrun, Hvalid.
    unfold FormView.form_valid.
    rewrite run_FormMixin_form_valid
      by apply (reads_only_get_success_url a_FormView).
    unfold FormView.get_success_url, FormMixin.get_success_url.
    by destruct Hurl as [-> | ->].
Qed.

End submissions.

Lemma post_answers_witness :
  (∃ url, Response_ "" = HTTPFound url)
  ∨ (endpoint endpoint_view = true
     ∧ (Response_ "" = Response_ ""
        ∨ ∃ form, validate form = false
                  ∧ Response_ ""
                    = HTTPBadRequest (Some (json_errors (errors form)))))
  ∨ (endpoint endpoint_view = false
     ∧ ∃ form, validate form = false
               ∧ Response_ "" = Rendered {| ctx_form := form |}).
Proof.
  eapply (post_answers a_CreateView endpoint_view (post_request "x")
            (start ∅)).
  vm_compute. reflexivity.
Defined.

Lemma form_view_only_answers_witness :
  FormView.post thanks_view (post_request "x") (start ∅)
  = (Ok (HTTPFound "/thanks/%(id)s"), start ∅)
  ∧ FormView.post bare_endpoint (post_request "x") (start ∅)
    = (Ok (Response_ ""), start ∅).
Proof.
  destruct (form_view_only_answers thanks_view (post_request "x"))
    as (_ & _ & _ & Hurl & _).
  destruct (form_view_only_answers bare_endpoint (post_request "x"))
    as (_ & _ & _ & _ & Hnone).
  split.
  - eapply Hurl; [reflexivity..|discriminate].
  - eapply (Hnone (start ∅)); [reflexivity..|by left].
Defined.

(** ** Errors on the way to the success URL *)

Section url_errors.
Context `{!Collaborators}.

Lemma run_form_valid_answer (self : View) (gsu : M string) (form : Form)
    (st : State) :
  reads_only gsu →
  FormMixin.form_valid self gsu form st = (answer self (gsu st).1, st).
Proof. apply run_FormMixin_form_valid. Qed.

(** X6.  Only [ImproperlyConfigured] is handled: any other exception
    raised while the success URL is computed (a failed interpolation, a
    failing [get_absolute_url]) leaves the view as it is, endpoint or
    not, and the object stays saved, or marked deleted. *)
Theorem other_errors_are_raised (self : View) (request : Request)
    (st : State) (e : exn) :
  (∀ msg, e ≠ ImproperlyConfigured msg) →
  (∀ cls st1 st2 fc form r,
     entered cls self request st = Ok st1 →
     (get_form_class_of cls self st1).1 = Ok fc →
     (get_form_of cls self request fc st1).1 = Ok form →
     validate form = true →
     before_answer cls self request form st1 = (Ok r, st2) →
     (get_success_url_of cls self st2).1 = Raise e →
     post_of cls self request st = (Raise e, st2)
     ∧ put_of cls self request st = (Raise e, st2))
  ∧ (∀ l,
       get_object self request st = Ok l →
       (DeleteView.get_success_url self (with_deleted st l)).1 = Raise e →
       DeleteView.delete self request st = (Raise e, with_deleted st l)
       ∧ DeleteView.post self request st = (Raise e, with_deleted st l)).
Proof.
  intros Hne.
  assert (∀ r : result string, r = Raise e → answer self r = Raise e)
    as Hanswer.
  { intros r ->. unfold answer. destruct e; try done. by destruct (Hne msg). }
  split.
  - intros cls st1 st2 fc form r Hen Hfc Hform Hvalid Hbefore Hurl.
    destruct (run_post cls self request st st1 fc form Hen Hfc Hform)
      as [_ ->].
    rewrite (run_valid_post cls self request st st1 st2 fc form r) by done.
    rewrite run_form_valid_answer by apply reads_only_get_success_url.
    by rewrite (Hanswer _ Hurl).
  - intros l Hobj Hurl.
    destruct (run_delete self request st l Hobj) as [Hdel ->].
    by rewrite Hdel, (Hanswer _ Hurl).
Qed.

(** X7.  How [ModelFormMixin.get_success_url] fails.  Without a success
    URL, every [AttributeError] becomes [ImproperlyConfigured]: the view
    has no object, the model has no [get_absolute_url], or
    [get_absolute_url] itself raised one; its other exceptions pass.
    With a success URL nothing is caught: a view without an object
    raises [AttributeError], a failed interpolation its own error. *)
Theorem get_success_url_failures (self : View) (st : State) :
  let misconfigured : result string * State :=
    (Raise (ImproperlyConfigured
       "No URL to redirect to.  Either provide a url or define a get_absolute_url method on the Model."),
     st) in
  (truthy (success_url self) = false →
     (self_object st = None ∨ self_object st = Some None →
        ModelFormMixin.get_success_url self st = misconfigured)
     ∧ (∀ l o, self_object st = Some (Some l) → heap st !! l = Some o →
          (get_absolute_url (__class__ o) = None →
             ModelFormMixin.get_success_url self st = misconfigured)
          ∧ (∀ url_of name,
               get_absolute_url (__class__ o) = Some url_of →
               url_of (__dict__ o) = Raise (AttributeError name) →
               ModelFormMixin.get_success_url self st = misconfigured)
          ∧ (∀ url_of e,
               get_absolute_url (__class__ o) = Some url_of →
               url_of (__dict__ o) = Raise e →
               (∀ name, e ≠ AttributeError name) →
               ModelFormMixin.get_success_url self st = (Raise e, st))))
  ∧ (truthy (success_url self) = true →
     (self_object st = None →
        ModelFormMixin.get_success_url self st
        = (Raise (AttributeError "object"), st))
     ∧ (self_object st = Some None →
          ModelFormMixin.get_success_url self st
          = (Raise (AttributeError "__dict__"), st))
     ∧ (∀ l o e, self_object st = Some (Some l) → heap st !! l = Some o →
          interpolate (default "" (success_url self)) (__dict__ o)
          = Raise e →
          ModelFormMixin.get_success_url self st = (Raise e, st))).
Proof.
  intros misconfigured. subst misconfigured.
  unfold ModelFormMixin.get_success_url. split; intros ->.
  - split.
    + intros [Hso|Hso]; unfold try_except; rewrite run_bind;
        unfold get_self_object; by rewrite Hso.
    + intros l o Hso Hl. unfold try_except.
      rewrite (run_bind_ok _ _ _ _ _ (run_get_self_object st _ Hso)).
      rewrite (run_bind_ok _ _ _ _ _ (run_deref st l o Hl)).
      split_and!.
      * by intros ->.
      * intros url_of name -> Hraise. unfold lift. by rewrite Hraise.
      * intros url_of e -> Hraise Hne. unfold lift. rewrite Hraise.
        destruct e; try done. by destruct (Hne name).
  - split_and!.
    + intros Hso. rewrite run_bind. unfold get_self_object. by rewrite Hso.
    + intros Hso.
      by rewrite (run_bind_ok _ _ _ _ _ (run_get_self_object st _ Hso)).
    + intros l o e Hso Hl Hraise.
      rewrite (run_bind_ok _ _ _ _ _ (run_get_self_object st _ Hso)).
      rewrite (run_bind_ok _ _ _ _ _ (run_deref st l o Hl)).
      unfold lift. by rewrite Hraise.
Qed.

(** X8.  A form class that is [None] is called all the same.  A
    [FormView] without [form_class] raises [TypeError] on POST, and on
    GET unless it is answered 501 first; nothing changes.
    [ModelFormMixin.get_form_class] never returns [None]. *)
Theorem missing_form_class (self : View) (request : Request) (st : State) :
  (form_class self = None →
     FormView.post self request st
     = (Raise (TypeError "'NoneType' object is not callable"), st)
     ∧ FormView.put self request st
       = (Raise (TypeError "'NoneType' object is not callable"), st)
     ∧ FormView.get self request st
       = (if endpoint self && negb (truthy (template_name self))
          then Ok HTTPNotImplemented
          else Raise (TypeError "'NoneType' object is not callable"), st))
  ∧ (∀ fc, (ModelFormMixin.get_form_class self st).1 = Ok fc →
       ∃ c, fc = Some c).
Proof.
  split.
  - intros Hnone.
    assert (FormView.post self request st
            = (Raise (TypeError "'NoneType' object is not callable"), st))
      as Hpost.
    { unfold FormView.post, ProcessFormView.post, FormView.get_form_class,
        FormMixin.get_form_class. rewrite Hnone. rewrite run_bind. simpl.
      rewrite run_bind. unfold FormView.get_form, FormMixin.get_form.
      destruct (run_get_form_kwargs a_FormView self request st)
        as (kwargs & Hkw & _).
      simpl in Hkw. by rewrite (run_bind_ok _ _ _ _ _ Hkw). }
    split_and!; [done|done|].
    unfold FormView.get, FormMixin.get.
    destruct (endpoint self && negb (truthy (template_name self)));
      [done|].
    unfold ProcessFormView.get, FormView.get_form_class,
      FormMixin.get_form_class. rewrite Hnone. rewrite run_bind. simpl.
    rewrite run_bind. unfold FormView.get_form, FormMixin.get_form.
    destruct (run_get_form_kwargs a_FormView self request st)
      as (kwargs & Hkw & _).
    simpl in Hkw. by rewrite (run_bind_ok _ _ _ _ _ Hkw).
  - intros fc. unfold ModelFormMixin.get_form_class.
    destruct (form_class self) as [c|]; [intros [= <-]; by eexists|].
    rewrite run_bind. unfold gets at 1. rewrite run_bind.
    match goal with
    | |- context [match ?m st with _ => _ end] =>
        destruct (m st) as [[m'|e] st']
    end; simpl; [intros [= <-]; by eexists|done].
Qed.

(** X9.  A create view that cannot tell its model saves nothing.  With no
    [model] and a form class whose [Meta] has no [model], a valid POST
    raises the [AttributeError] of that attribute; with a [Meta.model]
    that is [None], it raises [TypeError]; no object is made, none is
    added or flushed. *)
Theorem create_without_model (self : View) (request : Request)
    (st : State) (name : string) (form : Form)
    (meta_model : option (option Model)) :
  model self = None →
  form_class self = Some (DeclaredForm name meta_model) →
  (CreateView.get_form self request (Some (DeclaredForm name meta_model))
     (with_object st None)).1 = Ok form →
  validate form = true →
  match meta_model with
  | None =>
      CreateView.post self request st
      = (Raise (AttributeError "model"), with_object st None)
  | Some None =>
      CreateView.post self request st
      = (Raise (TypeError "'NoneType' object is not callable"),
         with_object st None)
  | Some (Some m) =>
      ∃ r st2, CreateView.post self request st = (r, st2)
               ∧ ∃ o, heap st2 !! fresh_loc (heap st) = Some o
                      ∧ __class__ o = m
  end.
Proof.
  intros Hmodel Hfc Hform Hvalid.
  assert ((CreateView.get_form_class self (with_object st None)).1
          = Ok (Some (DeclaredForm name meta_model))) as Hfc'.
  { unfold CreateView.get_form_class, ModelFormMixin.get_form_class.
    by rewrite Hfc. }
  destruct (run_post a_CreateView self request st (with_object st None)
              _ form eq_refl Hfc' Hform) as [Hpost _].
  simpl in Hpost. rewrite Hpost, Hvalid.
  apply reads_only_run in Hfc';
    [|apply (reads_only_get_form_class a_CreateView)].
  simpl in Hfc'. unfold CreateView.get_form_class in Hfc'.
  destruct meta_model as [[m|]|].
  - destruct (before_answer_create self request form (with_object st None)
                m eq_refl) as (st2 & Hbefore & _ & (o2 & Ho2 & Hk & _) & _).
    { right. split; [done|].
      exists (Some (DeclaredForm name (Some (Some m)))).
      split; [by rewrite Hfc'|done]. }
    pose proof (form_valid_answer a_CreateView self request form
                  (with_object st None)) as Hans.
    unfold form_valid_of in Hans. rewrite Hans, Hbefore.
    rewrite run_FormMixin_form_valid
      by apply (reads_only_get_success_url a_CreateView).
    eexists _, st2. split; [done|]. exists o2. split; [done|].
    destruct Hk as (-> & _). apply populated_class.
  - unfold CreateView.form_valid, ModelFormMixin.form_valid.
    erewrite run_bind_ok; [|by apply run_get_self_object].
    rewrite run_bind, run_bind, Hmodel. unfold CreateView.get_form_class.
    by rewrite (run_bind_ok _ _ _ _ _ Hfc').
  - unfold CreateView.form_valid, ModelFormMixin.form_valid.
    erewrite run_bind_ok; [|by apply run_get_self_object].
    rewrite run_bind, run_bind, Hmodel. unfold CreateView.get_form_class.
    by rewrite (run_bind_ok _ _ _ _ _ Hfc').
Qed.

End url_errors.

Lemma other_errors_are_raised_witness :
  (∃ st2, CreateView.post slug_endpoint (post_request "x") (start ∅)
          = (Raise (KeyError "slug"), st2))
  ∧ DeleteView.delete slug_endpoint get_request (start {[ 0%nat := canvas ]})
    = (Raise (KeyError "slug"),
       with_deleted (start {[ 0%nat := canvas ]}) 0%nat).
Proof.
  destruct (other_errors_are_raised slug_endpoint (post_request "x")
              (start ∅) (KeyError "slug")) as [Hform _]; [discriminate|].
  destruct (other_errors_are_raised slug_endpoint get_request
              (start {[ 0%nat := canvas ]}) (KeyError "slug"))
    as [_ Hdelete]; [discriminate|].
  split.
  - exists (before_answer a_CreateView slug_endpoint (post_request "x")
              (posted "x" None ∅) (with_object (start ∅) None)).2.
    apply (Hform a_CreateView (with_object (start ∅) None) _
             (Some (ModelFormWithModel Author None)) (posted "x" None ∅)
             (Response_ "")).
    + reflexivity.
    + reflexivity.
    + reflexivity.
    + reflexivity.
    + apply injective_projections; [vm_compute; reflexivity|reflexivity].
    + vm_compute. reflexivity.
  - apply (Hdelete 0%nat); [reflexivity|]. vm_compute. reflexivity.
Defined.

Lemma get_success_url_failures_witness :
  ModelFormMixin.get_success_url view (editing book)
  = (Raise (ImproperlyConfigured
       "No URL to redirect to.  Either provide a url or define a get_absolute_url method on the Model."),
     editing book)
  ∧ ModelFormMixin.get_success_url view (start ∅)
    = (Raise (ImproperlyConfigured
         "No URL to redirect to.  Either provide a url or define a get_absolute_url method on the Model."),
       start ∅)
  ∧ ModelFormMixin.get_success_url items_view (start ∅)
    = (Raise (AttributeError "object"), start ∅)
  ∧ ModelFormMixin.get_success_url items_view (editing book)
    = (Raise (KeyError "id"), editing book).
Proof.
  destruct (get_success_url_failures view (editing book)) as [Hunset _].
  destruct Hunset as [_ Hobj]; [reflexivity|].
  destruct (Hobj 0%nat book) as (Hnone & _); [reflexivity..|].
  destruct (get_success_url_failures view (start ∅)) as [Hunset _].
  destruct Hunset as [Hno _]; [reflexivity|].
  destruct (get_success_url_failures items_view (start ∅)) as [_ Hset].
  destruct Hset as (Habsent & _); [reflexivity|].
  destruct (get_success_url_failures items_view (editing book))
    as [_ Hset].
  destruct Hset as (_ & _ & Hinterp); [reflexivity|].
  split_and!.
  - by apply Hnone.
  - apply Hno. by left.
  - by apply Habsent.
  - by apply (Hinterp 0%nat book).
Defined.

Lemma missing_form_class_witness :
  FormView.post view (post_request "x") (start ∅)
  = (Raise (TypeError "'NoneType' object is not callable"), start ∅)
  ∧ ∃ c, (ModelFormMixin.get_form_class view (start ∅)).1 = Ok (Some c).
Proof.
  destruct (missing_form_class view (post_request "x") (start ∅))
    as [Hnone Hsome].
  destruct Hnone as (Hpost & _); [reflexivity|].
  split; [exact Hpost|].
  destruct (Hsome (Some (ModelFormWithModel Author None))) as [c Hc];
    [reflexivity|].
  by exists (ModelFormWithModel Author None).
Defined.

Lemma create_without_model_witness :
  CreateView.post bare_endpoint (post_request "x") (start ∅)
  = (Raise (AttributeError "model"), with_object (start ∅) None).
Proof.
  apply (create_without_model bare_endpoint (post_request "x") (start ∅)
           "NameForm" (posted "x" None ∅) None); reflexivity.
Defined.

(** ** Binding the form *)

Section binding.
Context `{!Collaborators}.

(** X10.  What a form is built from.  The data are the view's [initial],
    the prefix is the empty string unless one is set, and the POST data
    are passed as [formdata] exactly when the request method is POST or
    PUT, in any letter case.  [obj] and [instance] name the same object:
    none for a create view, the resolved object for an update view; a
    plain form view passes no [instance]. *)
Theorem form_kwargs_by_view (cls : form_view) (self : View)
    (request : Request) (st st1 : State) :
  entered cls self request st = Ok st1 →
  ∃ kwargs,
    get_form_kwargs_of cls self request st1 = (Ok kwargs, st1)
    ∧ kw_data kwargs = initial self
    ∧ kw_prefix kwargs = default "" (prefix self)
    ∧ (upper (method request) = "POST" ∨ upper (method request) = "PUT" →
       kw_formdata kwargs = Some (POST request))
    ∧ (upper (method request) ≠ "POST" → upper (method request) ≠ "PUT" →
       kw_formdata kwargs = None)
    ∧ match cls with
      | a_FormView =>
          kw_obj kwargs = default None (self_object st)
          ∧ kw_instance kwargs = None
      | a_CreateView =>
          kw_obj kwargs = None ∧ kw_instance kwargs = Some None
      | a_UpdateView =>
          ∃ l, get_object self request st = Ok l
               ∧ kw_obj kwargs = Some l
               ∧ kw_instance kwargs = Some (Some l)
      end.
Proof.
  intros Hen.
  assert (∀ fd : option (list (string * Value)),
    fd = (if bool_decide (upper (method request) ∈ ["POST"; "PUT"])
          then Some (POST request) else None) →
    (upper (method request) = "POST" ∨ upper (method request) = "PUT" →
     fd = Some (POST request))
    ∧ (upper (method request) ≠ "POST" → upper (method request) ≠ "PUT" →
       fd = None)) as Hformdata.
  { intros fd ->. case_bool_decide as Hm.
    - split; [done|]. intros Hpost Hput.
      apply elem_of_cons in Hm as [Hm|Hm]; [done|].
      by apply list_elem_of_singleton in Hm.
    - split; [|done]. intros Hm'. destruct Hm.
      destruct Hm' as [-> | ->]; [left|right; left]. }
  destruct cls; simpl in *.
  - injection Hen as <-.
    unfold FormView.get_form_kwargs, FormMixin.get_form_kwargs.
    rewrite run_bind. simpl. eexists. split; [reflexivity|]. simpl.
    split_and!; try done; by apply Hformdata.
  - injection Hen as <-.
    unfold CreateView.get_form_kwargs, ModelFormMixin.get_form_kwargs,
      FormMixin.get_form_kwargs.
    rewrite !run_bind. simpl. eexists. split; [reflexivity|]. simpl.
    split_and!; try done; by apply Hformdata.
  - destruct (get_object self request st) as [l|e]; [|done].
    injection Hen as <-.
    unfold UpdateView.get_form_kwargs, ModelFormMixin.get_form_kwargs,
      FormMixin.get_form_kwargs.
    rewrite !run_bind. simpl. eexists. split; [reflexivity|]. simpl.
    split_and!; try done; try by apply Hformdata.
    by exists l.
Qed.

End binding.

Lemma form_kwargs_by_view_witness :
  ∃ kwargs,
    UpdateView.get_form_kwargs view {| method := "put"; POST := [] |}
      (with_object (start {[ 0%nat := book ]}) (Some 0%nat))
    = (Ok kwargs, with_object (start {[ 0%nat := book ]}) (Some 0%nat))
    ∧ kw_formdata kwargs = Some []
    ∧ kw_obj kwargs = Some 0%nat
    ∧ kw_instance kwargs = Some (Some 0%nat).
Proof.
  destruct (form_kwargs_by_view a_UpdateView view
              {| method := "put"; POST := [] |}
              (start {[ 0%nat := book ]})
              (with_object (start {[ 0%nat := book ]}) (Some 0%nat)))
    as (kwargs & Hrun & _ & _ & Hfd & _ & l & Hl & Hobj & Hinst);
    [reflexivity|].
  exists kwargs. split; [exact Hrun|].
  assert (l = 0%nat) as -> by (by injection Hl).
  split_and!; [|done..]. apply Hfd. by right.
Defined.

(** ** More on populating *)

Lemma populated_ext (p q : string → Field → bool)
    (fs : list (string * Field)) :
  (∀ name field, (name, field) ∈ fs → p name field = q name field) →
  ∀ o, populated p fs o = populated q fs o.
Proof.
  induction fs as [|[n f] fs IH]; intros Hpq o; [done|].
  simpl. rewrite (Hpq n f) by apply list_elem_of_here.
  apply IH. intros name field Hin. apply Hpq. by apply list_elem_of_further.
Qed.

Lemma assignments_ext (p q : string → Field → bool) (l : loc)
    (fs : list (string * Field)) :
  (∀ name field, (name, field) ∈ fs → p name field = q name field) →
  assignments p l fs = assignments q l fs.
Proof.
  induction fs as [|[n f] fs IH]; intros Hpq; [done|].
  rewrite !assignments_cons, (Hpq n f) by apply list_elem_of_here.
  rewrite IH; [done|].
  intros name field Hin. apply Hpq. by apply list_elem_of_further.
Qed.

Lemma populated_none (fs : list (string * Field)) (o : PyObj) :
  populated (λ _ _, false) fs o = o.
Proof. by induction fs as [|[n f] fs IH]. Qed.

Lemma assignments_none (l : loc) (fs : list (string * Field)) :
  assignments (λ _ _, false) l fs = [].
Proof.
  induction fs as [|[n f] fs IH]; [done|]. by rewrite assignments_cons.
Qed.

(** X11.  When every field of the form is submitted (or is in
    [always_update]) and no file field is empty, a partial update does
    what a full update does: the two leave the same state. *)
Theorem partial_update_of_all_fields (self : View) (request : Request)
    (form : Form) (st : State) (l : loc) (o : PyObj) :
  partial_updates self = true →
  self_object st = Some (Some l) →
  heap st !! l = Some o →
  (∀ name field, (name, field) ∈ _fields form →
     name ∈ default [] (always_update self)
     ∨ (name ∈ (POST request).*1
        ∧ ¬ (is_FileField field = true ∧ data field = VStr ""))) →
  BaseUpdateView.populate_obj self request form st
  = BaseUpdateView.populate_obj (without_partial_updates self) request
      form st.
Proof.
  intros Hpartial Hso Hl Hall.
  rewrite (run_BaseUpdateView_populate_obj self request form st l o Hso Hl).
  rewrite (run_BaseUpdateView_populate_obj (without_partial_updates self)
             request form st l o Hso Hl).
  unfold selection. rewrite Hpartial. simpl.
  assert (∀ name field, (name, field) ∈ _fields form →
            BaseUpdateView.populates self request name field
            = every name field) as Hext.
  { intros name field Hin. apply populates_spec. by apply Hall. }
  by rewrite (populated_ext _ _ _ Hext), (assignments_ext _ _ _ _ Hext).
Qed.

(** X12.  When none of the form's fields is submitted (or the submitted
    ones are empty file fields) and none is in [always_update], a
    partial update assigns nothing: the object is as it was, but for
    what the form's hook does. *)
Theorem partial_update_of_no_field (self : View) (request : Request)
    (form : Form) (st : State) (l : loc) (o : PyObj) :
  partial_updates self = true →
  self_object st = Some (Some l) →
  heap st !! l = Some o →
  (∀ name field, (name, field) ∈ _fields form →
     (name ∉ default [] (always_update self))
     ∧ ((name ∉ (POST request).*1)
        ∨ (is_FileField field = true ∧ data field = VStr ""))) →
  BaseUpdateView.populate_obj self request form st
  = (Ok tt, with_heap_trace st
              (<[l := after_hook (post_populate form) o]> (heap st))
              (trace st ++ hook_events (post_populate form) l)).
Proof.
  intros Hpartial Hso Hl Hnone.
  rewrite (run_BaseUpdateView_populate_obj self request form st l o Hso Hl).
  unfold selection. rewrite Hpartial.
  assert (∀ name field, (name, field) ∈ _fields form →
            BaseUpdateView.populates self request name field
            = (λ _ _, false) name field) as Hext.
  { intros name field Hin. apply not_true_is_false.
    rewrite populates_spec. destruct (Hnone name field Hin) as [Ha Hp].
    intros [?|[? Hfile]]; [done|]. destruct Hp as [?|?]; done. }
  rewrite (populated_ext _ _ _ Hext), (assignments_ext _ _ _ _ Hext).
  by rewrite populated_none, assignments_none.
Qed.

Lemma setattr_setattr (o : PyObj) (n : string) (v w : Value) :
  setattr (setattr o n v) n w = setattr o n w.
Proof. unfold setattr. simpl. by rewrite insert_insert_eq. Qed.

Lemma setattr_commute (o : PyObj) (n m : string) (v w : Value) :
  n ≠ m → setattr (setattr o n v) m w = setattr (setattr o m w) n v.
Proof. intros Hne. unfold setattr. simpl. by rewrite insert_insert_ne. Qed.

Lemma populated_every_cons (n : string) (f : Field)
    (fs : list (string * Field)) (o : PyObj) :
  populated every ((n, f) :: fs) o
  = populated every fs (setattr o n (data f)).
Proof. reflexivity. Qed.

Lemma populated_overwritten (n : string) (v : Value)
    (fs : list (string * Field)) :
  ∀ o, setattr (populated every fs (setattr o n v)) n v
       = setattr (populated every fs o) n v.
Proof.
  induction fs as [|[m g] fs IH]; intros o.
  - simpl. apply setattr_setattr.
  - rewrite !populated_every_cons. destruct (decide (n = m)) as [<-|Hne].
    + by rewrite setattr_setattr.
    + by rewrite (setattr_commute o n m) by done.
Qed.

Lemma populated_snoc (p : string → Field → bool)
    (fs : list (string * Field)) (n : string) (f : Field) (o : PyObj) :
  populated p (fs ++ [(n, f)]) o
  = if p n f then setattr (populated p fs o) n (data f)
    else populated p fs o.
Proof. unfold populated. by rewrite foldl_app. Qed.

Lemma populated_twice (fs : list (string * Field)) :
  ∀ o, populated every fs (populated every fs o) = populated every fs o.
Proof.
  induction fs as [|[n f] fs IH] using rev_ind; intros o; [done|].
  rewrite !populated_snoc. simpl.
  by rewrite populated_overwritten, IH.
Qed.

(** X13.  Populating is idempotent: populating the object twice from the
    same form leaves the objects as populating it once. *)
Theorem populate_obj_twice (form : Form) (st : State) (l : loc) (o : PyObj) :
  self_object st = Some (Some l) →
  heap st !! l = Some o →
  ∃ st1 st2,
    ModelFormMixin.populate_obj form st = (Ok tt, st1)
    ∧ ModelFormMixin.populate_obj form st1 = (Ok tt, st2)
    ∧ heap st2 = heap st1.
Proof.
  intros Hso Hl.
  pose proof (run_ModelFormMixin_populate_obj form st l o Hso Hl) as Hfirst.
  pose proof (run_ModelFormMixin_populate_obj form
                (with_heap_trace st
                   (<[l := populated every (_fields form) o]> (heap st))
                   (trace st ++ assignments every l (_fields form)))
                l (populated every (_fields form) o) Hso
                (lookup_insert_eq (heap st) l _)) as Hsecond.
  eexists _, _. split_and!; [exact Hfirst|exact Hsecond|].
  simpl. by rewrite insert_insert_eq, populated_twice.
Qed.

Lemma partial_update_of_all_fields_witness :
  BaseUpdateView.populate_obj partial_view (post_request "x")
    (posted "x" None ∅) (editing book)
  = BaseUpdateView.populate_obj (without_partial_updates partial_view)
      (post_request "x") (posted "x" None ∅) (editing book).
Proof.
  apply (partial_update_of_all_fields partial_view (post_request "x")
           (posted "x" None ∅) (editing book) 0%nat book);
    [reflexivity..|].
  intros name field Hin. apply list_elem_of_singleton in Hin.
  injection Hin as -> ->. right. split; [compute_done|].
  by intros [? _].
Defined.

Lemma partial_update_of_no_field_witness :
  BaseUpdateView.populate_obj sparse_view {| method := "POST"; POST := [] |}
    book_form (editing book)
  = (Ok tt, with_heap_trace (editing book)
              (<[0%nat := book]> (heap (editing book)))
              (trace (editing book) ++ [])).
Proof.
  apply (partial_update_of_no_field sparse_view
           {| method := "POST"; POST := [] |} book_form (editing book)
           0%nat book); [reflexivity..|].
  intros name field _. split; [apply not_elem_of_nil|].
  left. apply not_elem_of_nil.
Defined.

Lemma populate_obj_twice_witness :
  ∃ st1 st2,
    ModelFormMixin.populate_obj book_form (editing book) = (Ok tt, st1)
    ∧ ModelFormMixin.populate_obj book_form st1 = (Ok tt, st2)
    ∧ heap st2 = heap st1.
Proof.
  apply (populate_obj_twice book_form (editing book) 0%nat book);
    reflexivity.
Defined.
